(** * npbtool: timing and profiling wrapper for the NAS Parallel Benchmarks

    A shallow embedding of [npbtool.py] ([do_time], [tail_output],
    [do_profile], [run_profiler_on]) and the properties of its two modes.

    Modelling decisions.
    - Everything the script obtains from outside (the inherited environment,
      the wall clock, the lines the benchmark writes, the exit status of the
      children, the state of the [out/] directory) is collected in a [Host]
      record; the script is a function of its arguments and of that record.
    - Clock readings and durations are exact rationals ([Q]).  Every finite
      Python float is a rational; the rounding of float subtraction, the
      values inf and nan, and the sign of zero are not represented.
    - The script runs in a state-and-exception monad [M] over a [Store] that
      holds the log of externally visible actions and the two variables that
      the closure [tail_output] shares with [do_time].  The store survives an
      exception, as the variables of a Python frame do.
    - A [threading.Thread] body runs on the same store.  Its actions are
      logged in one block right after [thread.start()]; where they fall with
      respect to the actions of the main flow up to [thread.join()] is not
      fixed by the script, and the log shows one of the possible orders.  The
      clock values themselves come from the [Host], so no timing is derived
      from the position in the log.  An exception that escapes the body ends
      the thread only: [threading.excepthook] writes the traceback to
      standard error and the main flow goes on.
    - The runs covered are those in which every child terminates, so that
      [wait] and [join] return.  A benchmark whose output nobody reads any
      more can end only if what it still writes fits in the pipe
      ([pipe_capacity]); where a statement depends on that, it says so. *)

From stdpp Require Import gmap strings list.
From Stdlib Require Import QArith Qround DecimalString Ascii String Lia Lqa.

Open Scope string_scope.
Open Scope Z_scope.

(** ** Python values and built-ins used by the script *)

Module Py.

(** Exceptions that can occur in the script. *)
Inductive Exn : Type :=
| IndexError
| ValueError
| TypeError
| FileExistsError
| OSError
| OverflowError
| CalledProcessError (str_e : string)
| SystemExit (code : Z).

Inductive Result (A : Type) : Type :=
| Ok (a : A)
| Raise (e : Exn).
Arguments Ok {A} a.
Arguments Raise {A} e.

(** [str(n)] for an [int]. *)
Definition str (n : Z) : string := NilZero.string_of_int (Z.to_int n).

(** [s * n] for a string. *)
Fixpoint str_mul (s : string) (n : nat) : string :=
  match n with
  | O => ""
  | S n' => s ++ str_mul s n'
  end.

(** [needle in hay] for strings: [needle] occurs at some offset. *)
Fixpoint str_in (needle hay : string) : bool :=
  String.prefix needle hay ||
  match hay with
  | "" => false
  | String _ hay' => str_in needle hay'
  end.

(** A Python [str] is modelled by its UTF-8 encoding, one [ascii] per byte;
    containment of one string in another is the same on the encodings as on
    the characters. *)

(** The white space characters of one byte: tab, line feed, vertical tab,
    form feed, carriage return, the four separators 28-31 and the space. *)
Definition isspace (c : ascii) : bool :=
  let n := nat_of_ascii c in
  ((9 <=? n)%nat && (n <=? 13)%nat) || ((28 <=? n)%nat && (n <=? 32)%nat).

(** The number of bytes of the white space character at the head of [s],
    [0] when [s] does not start with one.  Besides the characters of
    [isspace], [str.isspace] accepts U+0085 and U+00A0 (two bytes) and
    U+1680, U+2000 to U+200A, U+2028, U+2029, U+202F, U+205F and U+3000
    (three bytes). *)
Definition space_bytes (s : string) : nat :=
  match s with
  | String a (String b rest) =>
      let x := nat_of_ascii a in
      let y := nat_of_ascii b in
      if isspace a then 1%nat
      else if (x =? 194)%nat && ((y =? 133)%nat || (y =? 160)%nat) then 2%nat
      else match rest with
           | String c _ =>
               let z := nat_of_ascii c in
               if ((x =? 225)%nat && (y =? 154)%nat && (z =? 128)%nat)
                  || ((x =? 226)%nat && (y =? 128)%nat
                      && (((128 <=? z)%nat && (z <=? 138)%nat)
                          || (z =? 168)%nat || (z =? 169)%nat
                          || (z =? 175)%nat))
                  || ((x =? 226)%nat && (y =? 129)%nat && (z =? 159)%nat)
                  || ((x =? 227)%nat && (y =? 128)%nat && (z =? 128)%nat)
               then 3%nat else 0%nat
           | "" => 0%nat
           end
  | String a "" => if isspace a then 1%nat else 0%nat
  | "" => 0%nat
  end.

(** [s.split()]: the maximal runs of characters that are not white space, in
    order.  [cur] is the run being read; [skip] counts the bytes still to
    pass of a white space character of several bytes. *)
Fixpoint split_from (skip : nat) (cur : string) (s : string) : list string :=
  match s with
  | "" => if String.eqb cur "" then [] else [cur]
  | String c s' =>
      match skip with
      | S k => split_from k cur s'
      | O =>
          match space_bytes s with
          | O => split_from 0 (cur ++ String c "") s'
          | S k =>
              if String.eqb cur "" then split_from k "" s'
              else cur :: split_from k "" s'
          end
      end
  end.

Definition split (s : string) : list string := split_from 0 "" s.

(** [l[i]] for a list and a non-negative index. *)
Definition getitem {A : Type} (l : list A) (i : nat) : Result A :=
  match l !! i with
  | Some x => Ok x
  | None => Raise IndexError
  end.

(** [x or y] for an optional float [x]: [None] and zero are falsy. *)
Definition or_ (x : option Q) (y : Q) : Q :=
  match x with
  | Some v => if Qeq_bool v 0 then y else v
  | None => y
  end.

(** [int(floor(x))]. *)
Definition int_floor (x : Q) : Z := Qfloor x.

(** [f"{x:.2f}"] for a float: the sign, the integer part and two decimals
    of the value rounded to the nearest hundredth, ties to even. *)
Definition format_2f (x : Q) : string :=
  let d := Zpos (Qden x) in
  let a := Z.abs (Qnum x) * 100 in
  let k := a / d in
  let r := a mod d in
  let k' := if 2 * r >? d then k + 1
            else if 2 * r =? d then (if Z.even k then k else k + 1)
            else k in
  let frac := k' mod 100 in
  (if Qnum x <? 0 then "-" else "") ++ str (k' / 100) ++ "." ++
  (if frac <? 10 then "0" else "") ++ str frac.

(** [f"{x:.2f}"] for a variable that holds a float or [None]:
    [NoneType.__format__] rejects the format string. *)
Definition format_2f_opt (x : option Q) : Result string :=
  match x with
  | Some v => Ok (format_2f v)
  | None => Raise TypeError
  end.

(** [os.path.basename(p)]: what follows the last slash. *)
Fixpoint basename_from (cur : string) (p : string) : string :=
  match p with
  | "" => cur
  | String c p' =>
      if Ascii.eqb c "/" then basename_from "" p'
      else basename_from (cur ++ String c "") p'
  end.

Definition basename (p : string) : string := basename_from "" p.

(** What [os.makedirs] finds at the path. *)
Inductive PathState : Type := Absent | Directory | RegularFile.

(** [os.makedirs(path, exist_ok=...)], on the state of [path]. *)
Definition makedirs (exist_ok : bool) (st : PathState) : Result PathState :=
  match st with
  | Absent => Ok Directory
  | Directory => if exist_ok then Ok Directory else Raise FileExistsError
  | RegularFile => Raise FileExistsError
  end.

(** The exit status of the interpreter for the way the script ends. *)
Definition exit_status {A : Type} (r : Result A) : Z :=
  match r with
  | Ok _ => 0
  | Raise (SystemExit c) => c
  | Raise _ => 1
  end.

End Py.

Export Py.

(** ** Logged actions, the store and the monad *)

Inductive Tid : Type := MainThread | WorkerThread.

(** The externally visible actions of the script. *)
Inductive Event : Type :=
| ERun (argv : list string) (check : bool)
| EMakedirs (path : string) (exist_ok : bool)
| EPopen (command : string) (shell stdout_pipe stderr_to_stdout text : bool)
         (env : gmap string string)
| ETime (t : Q)
| EThreadStart
| EWait (returncode : Z)
| EJoin
| EPrint (written : string)
| ESleep (secs : Q)
| EExcepthook (e : Exn).

(** The log, the thread that is running, and the two variables of [do_time]
    that [tail_output] declares [nonlocal]. *)
Record Store : Type := mkStore {
  log : list (Tid * Event);
  running : Tid;
  initialization_duration : option Q;
  mop_s : option Q
}.

Definition initial_store : Store :=
  {| log := []; running := MainThread;
     initialization_duration := None; mop_s := None |}.

Definition M (A : Type) : Type := Store -> Result A * Store.

#[global] Instance M_ret : MRet M := fun A a s => (Ok a, s).

#[global] Instance M_bind : MBind M := fun A B f m s =>
  match m s with
  | (Ok a, s') => f a s'
  | (Raise e, s') => (Raise e, s')
  end.

Definition raise {A : Type} (e : Exn) : M A := fun s => (Raise e, s).

Definition lift {A : Type} (r : Result A) : M A := fun s => (r, s).

Definition emit (e : Event) : M unit := fun s =>
  (Ok tt, {| log := log s ++ [(running s, e)]; running := running s;
             initialization_duration := initialization_duration s;
             mop_s := mop_s s |}).

Definition get_initialization_duration : M (option Q) :=
  fun s => (Ok (initialization_duration s), s).

Definition get_mop_s : M (option Q) := fun s => (Ok (mop_s s), s).

Definition set_initialization_duration (v : option Q) : M unit := fun s =>
  (Ok tt, {| log := log s; running := running s;
             initialization_duration := v; mop_s := mop_s s |}).

Definition set_mop_s (v : option Q) : M unit := fun s =>
  (Ok tt, {| log := log s; running := running s;
             initialization_duration := initialization_duration s;
             mop_s := v |}).

Definition set_running (t : Tid) : M unit := fun s =>
  (Ok tt, {| log := log s; running := t;
             initialization_duration := initialization_duration s;
             mop_s := mop_s s |}).

(** [if c: body]. *)
Definition when (c : bool) (body : M unit) : M unit :=
  if c then body else mret tt.

(** [x == None]. *)
Definition eq_None {A : Type} (x : option A) : bool :=
  match x with
  | None => true
  | Some _ => false
  end.

Definition LF : string := String (ascii_of_nat 10) "".

(** [print(s)] and [print(s, end=e)]. *)
Definition print_end (s e : string) : M unit := emit (EPrint (s ++ e)).
Definition print (s : string) : M unit := print_end s LF.

(** [time.time()], reading [t]. *)
Definition time_time (t : Q) : M Q := emit (ETime t) ;; mret t.

(** The exception [time.sleep(secs)] raises, if any: the length is turned
    into whole nanoseconds in a signed 64-bit integer, which raises
    [OverflowError] when it does not fit; a negative length is then rejected
    with [ValueError].  (In exact arithmetic: the rounding of the product
    in floating point is not represented.) *)
Definition sleep_error (secs : Q) : option Exn :=
  let ns := (secs * 1000000000)%Q in
  if Qle_bool (-9223372036854775808) ns && Qle_bool ns 9223372036854775807
  then (if Qle_bool 0 secs then None else Some ValueError)
  else Some OverflowError.

(** [time.sleep(secs)]. *)
Definition time_sleep (secs : Q) : M unit :=
  match sleep_error secs with
  | None => emit (ESleep secs)
  | Some e => raise e
  end.

(** [sys.exit(code)]. *)
Definition sys_exit {A : Type} (code : Z) : M A := raise (SystemExit code).

(** How a command started with [subprocess.run] ends. *)
Inductive RunOutcome : Type :=
| Completed
| NonZeroExit (str_e : string)
| CannotExecute.

(** [subprocess.run(argv, check=...)]: a command that cannot be executed
    raises [OSError]; a non-zero exit status raises [CalledProcessError]
    (whose text is [str_e]) only under [check=True]. *)
Definition subprocess_run (argv : list string) (check : bool)
    (o : RunOutcome) : M unit :=
  emit (ERun argv check) ;;
  match o with
  | Completed => mret tt
  | NonZeroExit str_e =>
      if check then raise (CalledProcessError str_e) else mret tt
  | CannotExecute => raise OSError
  end.

(** [try: body  except subprocess.CalledProcessError as e: handler]. *)
Definition try_except_CalledProcessError {A : Type} (body : M A)
    (handler : string -> M A) : M A := fun s =>
  match body s with
  | (Raise (CalledProcessError str_e), s') => handler str_e s'
  | r => r
  end.

(** [os.makedirs(path, exist_ok=...)]. *)
Definition os_makedirs (path : string) (exist_ok : bool)
    (st : PathState) : M unit :=
  emit (EMakedirs path exist_ok) ;;
  _ ← lift (makedirs exist_ok st) ; mret tt.

(** [threading.Thread(target=body).start()]: the body runs as the worker
    thread; an exception that escapes it is handed to
    [threading.excepthook] ([SystemExit] is dropped silently) and does not
    reach the main flow. *)
Definition thread_start (body : M unit) : M unit := fun s =>
  match (emit EThreadStart ;; set_running WorkerThread ;; body) s with
  | (Ok _, s') => set_running MainThread s'
  | (Raise (SystemExit _), s') => set_running MainThread s'
  | (Raise e, s') => (emit (EExcepthook e) ;; set_running MainThread) s'
  end.

Definition thread_join : M unit := emit EJoin.

(** What is written to standard output, and the tracebacks written to
    standard error, in the order of the log. *)
Definition stdout (l : list (Tid * Event)) : list string :=
  omap (fun te => match snd te with EPrint w => Some w | _ => None end) l.

Definition stderr (l : list (Tid * Event)) : list Exn :=
  omap (fun te => match snd te with EExcepthook e => Some e | _ => None end) l.

(** ** The host and the command line *)

(** What one invocation meets outside the script. *)
Record Host : Type := mkHost {
  (** [os.environ] *)
  environ : gmap string string;
  (** how [sudo modprobe msr] ends *)
  modprobe_msr : RunOutcome;
  (** what is at [out/] when the script starts *)
  out_dir : PathState;
  (** the lines the benchmark writes (standard output and standard error
      together), each with the value [time.time()] has while the reader
      handles that line *)
  benchmark_output : list (string * Q);
  (** the exit status of the benchmark *)
  benchmark_returncode : Z;
  (** [time.time()] right after the benchmark is started *)
  time_started : Q;
  (** [time.time()] right after [process.wait()] returns *)
  time_waited : Q;
  (** how the profiler command ends *)
  uprof_pcm : RunOutcome;
  (** how many bytes the pipe from the benchmark holds while nobody reads *)
  pipe_capacity : N
}.

(** The [argparse] namespace; the [time] subcommand sets [command] only. *)
Record Args : Type := mkArgs {
  command : string;
  init_duration : Q;
  run_duration : Q
}.

(** A [subprocess.Popen] object: the pipe to read from, when one was asked
    for, and the exit status [wait] will collect. *)
Record Process : Type := mkProcess {
  process_stdout : option (list (string * Q));
  process_returncode : Z
}.

Definition subprocess_Popen (cmd : string)
    (shell stdout_pipe stderr_to_stdout text : bool)
    (env : gmap string string) (h : Host) : M Process :=
  emit (EPopen cmd shell stdout_pipe stderr_to_stdout text env) ;;
  mret {| process_stdout :=
            if stdout_pipe then Some (benchmark_output h) else None;
          process_returncode := benchmark_returncode h |}.

Definition process_wait (p : Process) : M Z :=
  emit (EWait (process_returncode p)) ;; mret (process_returncode p).

(** ** The script *)

Definition OMP_NUM_THREADS : Z := 64.
Definition SPLIT_MARKER : string := "Initialization time".
Definition MOP_S_MARKER : string := "Mop/s total".
Definition UPROF_PCM_EXE : string := "/opt/AMDuProf_4.2-850/bin/AMDuProfPcm".

Section Script.

(** [float(s)] for a string: [None] stands for [ValueError]. *)
Variable float : string -> option Q.

Definition py_float (s : string) : M Q :=
  match float s with
  | Some x => mret x
  | None => raise ValueError
  end.

(** The closure [tail_output] of [do_time], over the lines of
    [process.stdout]. *)
Fixpoint tail_output (start_time : Q) (lines : list (string * Q)) : M unit :=
  match lines with
  | [] => mret tt
  | (line, now) :: rest =>
      print_end line "" ;;
      i ← get_initialization_duration ;
      when (str_in SPLIT_MARKER line && eq_None i)
        (t ← time_time now ;
         set_initialization_duration (Some (t - start_time)%Q)) ;;
      m ← get_mop_s ;
      when (str_in MOP_S_MARKER line && eq_None m)
        (tok ← lift (getitem (split line) 3) ;
         x ← py_float tok ;
         set_mop_s (Some x)) ;;
      tail_output start_time rest
  end.

Definition do_time (args : Args) (h : Host) : M unit :=
  let env := <["OMP_NUM_THREADS" := str OMP_NUM_THREADS]> (environ h) in
  process ← subprocess_Popen (command args) true true true true env h ;
  start_time ← time_time (time_started h) ;
  set_initialization_duration None ;;
  set_mop_s None ;;
  thread_start (tail_output start_time (default [] (process_stdout process))) ;;
  process_wait process ;;
  end_time ← time_time (time_waited h) ;
  thread_join ;;
  let total_duration := (end_time - start_time)%Q in
  i ← get_initialization_duration ;
  set_initialization_duration (Some (or_ i 0)) ;;
  let initialization_duration := or_ i 0 in
  let runtime_duration := (total_duration - initialization_duration)%Q in
  print (str_mul "-" 40) ;;
  print ("Initialization duration: " ++ format_2f initialization_duration
           ++ " seconds") ;;
  print ("Runtime duration: " ++ format_2f runtime_duration ++ " seconds") ;;
  print ("Total execution duration: " ++ format_2f total_duration
           ++ " seconds") ;;
  m ← get_mop_s ;
  f ← lift (format_2f_opt m) ;
  print ("Mop/s: " ++ f).

(** The closure [run_profiler_on] of [do_profile]. *)
Definition run_profiler_on (cmd : string) (init_duration run_duration : Q)
    (csv_output_path : string) (h : Host) : M unit :=
  time_sleep init_duration ;;
  let run_duration_s := int_floor run_duration in
  let profiler_command :=
    [UPROF_PCM_EXE; "-m"; "memory"; "-a"; "-d"; str run_duration_s;
     "-o"; csv_output_path] in
  subprocess_run profiler_command false (uprof_pcm h).

Definition do_profile (args : Args) (h : Host) : M unit :=
  try_except_CalledProcessError
    (subprocess_run ["sudo"; "modprobe"; "msr"] true (modprobe_msr h))
    (fun e =>
       print ("Error inserting msr kernel module: " ++ e) ;;
       sys_exit 1) ;;
  let env := <["OMP_NUM_THREADS" := str OMP_NUM_THREADS]> (environ h) in
  os_makedirs "out/" true (out_dir h) ;;
  let benchmark_name := basename (command args) in
  let csv_output_path := "out/" ++ benchmark_name ++ ".csv" in
  process ← subprocess_Popen (command args) true false false false env h ;
  thread_start (run_profiler_on (command args) (init_duration args)
                  (run_duration args) csv_output_path h) ;;
  process_wait process ;;
  thread_join ;;
  print (str_mul "-" 40) ;;
  print ("Profiling complete; output: " ++ csv_output_path).

End Script.

(** A reader of plain decimal literals ([12], [-3.50], [.5]) that stands for
    [float] where a concrete run is evaluated. *)
Fixpoint digits_value (acc : Z) (s : string) : option (Z * nat) :=
  match s with
  | "" => Some (acc, O)
  | String c s' =>
      let n := nat_of_ascii c in
      if ((48 <=? n)%nat && (n <=? 57)%nat)
      then match digits_value (10 * acc + Z.of_nat (n - 48)) s' with
           | Some (v, k) => Some (v, S k)
           | None => None
           end
      else None
  end.

Fixpoint split_at_dot (cur : string) (s : string) : string * option string :=
  match s with
  | "" => (cur, None)
  | String c s' =>
      if Ascii.eqb c "." then (cur, Some s')
      else split_at_dot (cur ++ String c "") s'
  end.

Definition unsigned_decimal (s : string) : option Q :=
  match split_at_dot "" s with
  | (ip, None) =>
      match ip, digits_value 0 ip with
      | "", _ => None
      | _, Some (v, _) => Some (inject_Z v)
      | _, None => None
      end
  | (ip, Some fp) =>
      match digits_value 0 (ip ++ fp) with
      | Some (v, k) =>
          if (k =? 0)%nat then None
          else Some (v # Pos.of_nat (10 ^ String.length fp))
      | None => None
      end
  end.

Definition decimal_float (s : string) : option Q :=
  match s with
  | String "-" s' => option_map Qopp (unsigned_decimal s')
  | String "+" s' => unsigned_decimal s'
  | _ => unsigned_decimal s
  end.

Definition sample_host : Host :=
  {| environ := ∅; modprobe_msr := Completed; out_dir := Absent;
     benchmark_output :=
       [("NAS Parallel Benchmarks" ++ LF, 100);
        (" Initialization time = 2.0 seconds" ++ LF, 102);
        (" Mop/s total     =   12345.67" ++ LF, 110)]%Q;
     benchmark_returncode := 0;
     time_started := 100; time_waited := 111; uprof_pcm := Completed;
     pipe_capacity := 65536%N |}.

(** ** What the reader thread does, as a function of the lines

    [scan] gives the exception that ends [tail_output] (if any), the actions
    it logs and the values it leaves in the two shared variables. *)

Record Scan : Type := mkScan {
  scan_exn : option Exn;
  scan_events : list Event;
  scan_init : option Q;
  scan_mop : option Q
}.

Definition scan_cons (evs : list Event) (r : Scan) : Scan :=
  {| scan_exn := scan_exn r; scan_events := evs ++ scan_events r;
     scan_init := scan_init r; scan_mop := scan_mop r |}.

Section Scan.

Variable float : string -> option Q.

(** [float(line.split()[3])]. *)
Definition fourth_token (line : string) : Result Q :=
  match getitem (split line) 3 with
  | Ok tok =>
      match float tok with
      | Some x => Ok x
      | None => Raise ValueError
      end
  | Raise e => Raise e
  end.

Fixpoint scan (start_time : Q) (lines : list (string * Q))
    (i m : option Q) : Scan :=
  match lines with
  | [] => {| scan_exn := None; scan_events := []; scan_init := i; scan_mop := m |}
  | (line, now) :: rest =>
      let hit := str_in SPLIT_MARKER line && eq_None i in
      let i' := if hit then Some (now - start_time)%Q else i in
      let evs := EPrint (line ++ "") :: (if hit then [ETime now] else []) in
      if str_in MOP_S_MARKER line && eq_None m then
        match fourth_token line with
        | Ok x => scan_cons evs (scan start_time rest i' (Some x))
        | Raise e =>
            {| scan_exn := Some e; scan_events := evs;
               scan_init := i'; scan_mop := m |}
        end
      else scan_cons evs (scan start_time rest i' m)
  end.

Definition scan_result (r : Scan) : Result unit :=
  match scan_exn r with
  | None => Ok tt
  | Some e => Raise e
  end.

Lemma tail_output_scan (start_time : Q) (lines : list (string * Q)) (s : Store) :
  tail_output float start_time lines s =
  let r := scan start_time lines (initialization_duration s) (mop_s s) in
  (scan_result r,
   {| log := log s ++ map (pair (running s)) (scan_events r);
      running := running s;
      initialization_duration := scan_init r;
      mop_s := scan_mop r |}).
Proof.
  revert s. induction lines as [|[line now] rest IH]; intros [l t i m].
  - cbn. by rewrite app_nil_r.
  - cbn [tail_output scan].
    destruct (str_in SPLIT_MARKER line), (str_in MOP_S_MARKER line), i, m;
      repeat (unfold mbind, M_bind, print_end, emit,
                get_initialization_duration, get_mop_s, when, time_time,
                set_initialization_duration, set_mop_s, lift, py_float,
                fourth_token, raise, mret, M_ret; cbn);
      try (destruct (getitem (split line) 3) as [tok|e]; cbn;
           [destruct (float tok) as [x|]; cbn|]);
      rewrite ?IH; cbn; unfold scan_result; cbn;
      rewrite <- ?app_assoc; reflexivity.
Qed.

End Scan.

(** ** Properties of the reader *)

Lemma append_empty_r (s : string) : s ++ "" = s.
Proof.
  induction s as [|c s IH]; [reflexivity|].
  change (String c (s ++ "") = String c s). by rewrite IH.
Qed.

Lemma stdout_app (l1 l2 : list (Tid * Event)) :
  stdout (l1 ++ l2) = (stdout l1 ++ stdout l2)%list.
Proof. apply omap_app. Qed.

Lemma stderr_app (l1 l2 : list (Tid * Event)) :
  stderr (l1 ++ l2) = (stderr l1 ++ stderr l2)%list.
Proof. apply omap_app. Qed.

(** A line carries a marker. *)
Definition has_split (l : string * Q) : bool := str_in SPLIT_MARKER l.1.
Definition has_mop (l : string * Q) : bool := str_in MOP_S_MARKER l.1.

Section ScanFacts.

Variable float : string -> option Q.
Variable start_time : Q.

#[local] Ltac scan_cases line i m :=
  cbn [scan]; unfold has_split, has_mop in *; cbn [fst] in *;
  destruct (str_in SPLIT_MARKER line), (str_in MOP_S_MARKER line), i, m;
  cbn [andb eq_None] in *;
  try destruct (fourth_token float line);
  cbn [scan_cons scan_exn scan_events scan_init scan_mop] in *.

(** The reader can only be ended by the two exceptions of
    [float(line.split()[3])]. *)
Lemma fourth_token_exn (line : string) (e : Exn) :
  fourth_token float line = Raise e -> e = IndexError ∨ e = ValueError.
Proof.
  unfold fourth_token, getitem.
  destruct (split line !! 3%nat); [destruct (float _)|]; intros [= <-]; auto.
Qed.

Lemma scan_exn_parse (lines : list (string * Q)) (i m : option Q) (e : Exn) :
  scan_exn (scan float start_time lines i m) = Some e ->
  e = IndexError ∨ e = ValueError.
Proof.
  revert i m. induction lines as [|[line now] rest IH]; intros i m; [done|].
  cbn [scan].
  destruct (str_in MOP_S_MARKER line && eq_None m);
    [destruct (fourth_token float line) eqn:Hf|]; cbn; eauto.
  intros [= <-]. eauto using fourth_token_exn.
Qed.

(** Scanning a concatenation: the second part is reached only if the first
    ends without an exception, and starts from the values the first left. *)
Lemma scan_app (l1 l2 : list (string * Q)) (i m : option Q) :
  scan float start_time (l1 ++ l2) i m =
  let r1 := scan float start_time l1 i m in
  match scan_exn r1 with
  | Some _ => r1
  | None => scan_cons (scan_events r1)
              (scan float start_time l2 (scan_init r1) (scan_mop r1))
  end.
Proof.
  revert i m. induction l1 as [|[line now] rest IH]; intros i m.
  - cbn. by destruct (scan _ _ _ _ _).
  - cbn [app]. scan_cases line i m; rewrite ?IH; cbv zeta;
      try reflexivity;
      destruct (scan_exn (scan float start_time rest _ _));
      cbn; rewrite ?app_assoc; reflexivity.
Qed.

(** Once a variable holds a value the reader never assigns it again. *)
Lemma scan_init_kept (lines : list (string * Q)) (v : Q) (m : option Q) :
  scan_init (scan float start_time lines (Some v) m) = Some v.
Proof.
  revert m. induction lines as [|[line now] rest IH]; intros m; [done|].
  scan_cases line (@None Q) m; auto.
Qed.

Lemma scan_mop_kept (lines : list (string * Q)) (i : option Q) (v : Q) :
  let r := scan float start_time lines i (Some v) in
  scan_mop r = Some v ∧ scan_exn r = None.
Proof.
  revert i. induction lines as [|[line now] rest IH]; intros i; [done|].
  scan_cases line i (@None Q); apply IH.
Qed.

(** Lines without the marker leave the variable alone. *)
Lemma scan_init_no_split (lines : list (string * Q)) (i m : option Q) :
  Forall (fun l => has_split l = false) lines ->
  scan_init (scan float start_time lines i m) = i.
Proof.
  revert i m. induction lines as [|[line now] rest IH]; intros i m H; [done|].
  inversion H as [|? ? H1 H2]; subst. unfold has_split in H1; cbn in H1.
  cbn [scan]. rewrite H1. cbn.
  destruct (str_in MOP_S_MARKER line && eq_None m);
    [destruct (fourth_token float line)|]; cbn; auto.
Qed.

Lemma scan_no_mop (lines : list (string * Q)) (i m : option Q) :
  Forall (fun l => has_mop l = false) lines ->
  let r := scan float start_time lines i m in
  scan_mop r = m ∧ scan_exn r = None.
Proof.
  revert i m. induction lines as [|[line now] rest IH]; intros i m H; [done|].
  inversion H as [|? ? H1 H2]; subst. unfold has_mop in H1; cbn in H1.
  cbn [scan]. rewrite H1. cbn. by apply IH.
Qed.

(** A reader that is not ended by an exception echoes every line. *)
Lemma scan_echo (t : Tid) (lines : list (string * Q)) (i m : option Q) :
  scan_exn (scan float start_time lines i m) = None ->
  stdout (map (pair t) (scan_events (scan float start_time lines i m)))
  = map fst lines.
Proof.
  revert i m. induction lines as [|[line now] rest IH]; intros i m; [done|].
  scan_cases line i m; intros H; try discriminate;
    cbn; rewrite append_empty_r; f_equal; by apply IH.
Qed.

(** The reader itself writes nothing to standard error. *)
Lemma scan_no_traceback (t : Tid) (lines : list (string * Q)) (i m : option Q) :
  stderr (map (pair t) (scan_events (scan float start_time lines i m))) = [].
Proof.
  revert i m. induction lines as [|[line now] rest IH]; intros i m; [done|].
  scan_cases line i m; cbn; auto.
Qed.

(** The value the reader leaves in [initialization_duration] is the one it
    started with or comes from a marker line. *)
Lemma scan_init_cases (lines : list (string * Q)) (i m : option Q) :
  let r := scan float start_time lines i m in
  scan_init r = i ∨
  ∃ l, l ∈ lines ∧ has_split l = true
       ∧ scan_init r = Some (l.2 - start_time)%Q.
Proof.
  revert i m. induction lines as [|[line now] rest IH]; intros i m;
    [by left|].
  cbv zeta.
  assert (Hin : ∀ l, l ∈ rest -> l ∈ (line, now) :: rest)
    by (intros; by apply list_elem_of_further).
  destruct i as [v|].
  - left. apply scan_init_kept.
  - destruct (str_in SPLIT_MARKER line) eqn:Hs.
    + right. exists (line, now). split; [apply list_elem_of_here|].
      split; [exact Hs|].
      cbn [scan]. rewrite Hs. cbn.
      destruct (str_in MOP_S_MARKER line && eq_None m);
        [destruct (fourth_token float line)|]; cbn;
        rewrite ?scan_init_kept; reflexivity.
    + cbn [scan]. rewrite Hs. cbn.
      destruct (str_in MOP_S_MARKER line && eq_None m);
        [destruct (fourth_token float line)|]; cbn; auto;
        match goal with
        | |- context [scan float start_time rest None ?m'] =>
            destruct (IH None m') as [H|(l & H1 & H2 & H3)];
              [by left | right; exists l; auto]
        end.
Qed.

End ScanFacts.

(** ** The lines of the report *)

Definition separator_line : string := str_mul "-" 40 ++ LF.
Definition initialization_line (x : Q) : string :=
  ("Initialization duration: " ++ format_2f x ++ " seconds") ++ LF.
Definition runtime_line (x : Q) : string :=
  ("Runtime duration: " ++ format_2f x ++ " seconds") ++ LF.
Definition total_line (x : Q) : string :=
  ("Total execution duration: " ++ format_2f x ++ " seconds") ++ LF.
Definition mops_line (x : Q) : string := ("Mop/s: " ++ format_2f x) ++ LF.
Definition complete_line (path : string) : string :=
  ("Profiling complete; output: " ++ path) ++ LF.

(** The environment both modes give the benchmark. *)
Definition benchmark_env (h : Host) : gmap string string :=
  <["OMP_NUM_THREADS" := "64"]> (environ h).

(** The traceback the worker thread leaves, if an exception ended it. *)
Definition excepthook_events (e : option Exn) : list (Tid * Event) :=
  match e with
  | None | Some (SystemExit _) => []
  | Some e => [(WorkerThread, EExcepthook e)]
  end.

Section TimingRun.

Variable float : string -> option Q.

(** The whole of [do_time] in terms of [scan]. *)
Lemma do_time_run (args : Args) (h : Host) :
  let sc := scan float (time_started h) (benchmark_output h) None None in
  let i := or_ (scan_init sc) 0 in
  let total := (time_waited h - time_started h)%Q in
  let r := do_time float args h initial_store in
  r.1 = match scan_mop sc with Some _ => Ok tt | None => Raise TypeError end
  ∧ running r.2 = MainThread
  ∧ initialization_duration r.2 = Some i
  ∧ mop_s r.2 = scan_mop sc
  ∧ log r.2 =
     ([(MainThread, EPopen (command args) true true true true (benchmark_env h));
       (MainThread, ETime (time_started h));
       (MainThread, EThreadStart)]
      ++ map (pair WorkerThread) (scan_events sc)
      ++ excepthook_events (scan_exn sc)
      ++ [(MainThread, EWait (benchmark_returncode h));
          (MainThread, ETime (time_waited h));
          (MainThread, EJoin);
          (MainThread, EPrint separator_line);
          (MainThread, EPrint (initialization_line i));
          (MainThread, EPrint (runtime_line (total - i)%Q));
          (MainThread, EPrint (total_line total))]
      ++ match scan_mop sc with
         | Some x => [(MainThread, EPrint (mops_line x))]
         | None => []
         end)%list.
Proof.
  cbv zeta. unfold do_time, thread_start.
  repeat (unfold mbind, M_bind, subprocess_Popen, process_wait, time_time,
            thread_join, emit, set_running, set_initialization_duration,
            set_mop_s, get_initialization_duration, get_mop_s, print,
            print_end, lift, mret, M_ret; cbn).
  rewrite tail_output_scan. cbn.
  unfold scan_result, benchmark_env, excepthook_events.
  destruct (scan_exn _) as [[]|]; destruct (scan_mop _); cbn;
    repeat split; rewrite <- ?app_assoc; reflexivity.
Qed.

End TimingRun.

(** ** Timing mode *)

(** The report of a run names initialization duration [i] and total duration
    [total]: after whatever was echoed come the separator and the three
    duration lines, the runtime line formatting [total - i]. *)
Definition reports (out : list string) (i total : Q) : Prop :=
  ∃ echoed rest : list string,
    out = (echoed ++ [separator_line; initialization_line i;
                      runtime_line (total - i)%Q; total_line total]
                  ++ rest)%list.

(** The clock readings of the reader thread, in the order of the log. *)
Definition reader_clock (l : list (Tid * Event)) : list Q :=
  omap (fun te => match te with
                  | (WorkerThread, ETime t) => Some t
                  | _ => None
                  end) l.

(** The clock does not go back between the start and the end of the wait,
    and every reading the reader thread takes in the run lies between the
    reading at the start and the one after the wait. *)
Definition clock_in_session (float : string -> option Q) (args : Args)
    (h : Host) : Prop :=
  (time_started h <= time_waited h)%Q
  ∧ Forall (fun t => (time_started h <= t <= time_waited h)%Q)
           (reader_clock (log (do_time float args h initial_store).2)).

Lemma reader_clock_app (l1 l2 : list (Tid * Event)) :
  reader_clock (l1 ++ l2) = (reader_clock l1 ++ reader_clock l2)%list.
Proof. apply omap_app. Qed.

(** The value the reader leaves in [initialization_duration] is the one it
    started with or comes from a clock reading it took. *)
Lemma scan_init_read (float : string -> option Q) (start_time : Q)
    (lines : list (string * Q)) (i m : option Q) :
  let r := scan float start_time lines i m in
  scan_init r = i ∨
  ∃ now, now ∈ reader_clock (map (pair WorkerThread) (scan_events r))
         ∧ scan_init r = Some (now - start_time)%Q.
Proof.
  revert i m. induction lines as [|[line now] rest IH]; intros i m;
    [by left|].
  cbv zeta. destruct i as [v|]; [left; apply scan_init_kept|].
  cbn [scan]. destruct (str_in SPLIT_MARKER line) eqn:Hs; cbn [andb eq_None].
  - right. exists now.
    destruct (str_in MOP_S_MARKER line && eq_None m);
      [destruct (fourth_token float line)|];
      cbn [scan_cons scan_events scan_init]; rewrite ?scan_init_kept;
      (split; [apply list_elem_of_here | reflexivity]).
  - assert (Hgo : ∀ m',
      scan_init (scan float start_time rest None m') = None
      ∨ ∃ t, t ∈ reader_clock
                   (map (pair WorkerThread)
                      (EPrint (line ++ "")
                       :: scan_events (scan float start_time rest None m')))
             ∧ scan_init (scan float start_time rest None m')
               = Some (t - start_time)%Q).
    { intros m'. destruct (IH None m') as [H|(t & Ht & H)]; [by left|].
      right. exists t. split; [exact Ht | exact H]. }
    destruct (str_in MOP_S_MARKER line && eq_None m);
      [destruct (fourth_token float line)|];
      cbn [scan_cons scan_events scan_init app]; auto.
Qed.

Lemma Qminus_0_r (x : Q) : (x - 0)%Q = x.
Proof.
  destruct x as [n d]. unfold Qminus, Qplus, Qopp; cbn.
  f_equal; [lia | apply Pos.mul_1_r].
Qed.

Lemma or_zero_bounds (v : option Q) (hi : Q) :
  (0 <= hi)%Q -> (∀ x, v = Some x -> (0 <= x <= hi)%Q) ->
  (0 <= or_ v 0 <= hi)%Q.
Proof.
  intros Hhi Hv. destruct v as [x|]; cbn; [|lra].
  destruct (Qeq_bool x 0); [lra | by apply Hv].
Qed.

Section Timing.

Variable float : string -> option Q.

Lemma do_time_stdout (args : Args) (h : Host) :
  let sc := scan float (time_started h) (benchmark_output h) None None in
  let i := or_ (scan_init sc) 0 in
  let total := (time_waited h - time_started h)%Q in
  stdout (log (do_time float args h initial_store).2) =
  (stdout (map (pair WorkerThread) (scan_events sc))
   ++ [separator_line; initialization_line i; runtime_line (total - i)%Q;
       total_line total]
   ++ match scan_mop sc with Some x => [mops_line x] | None => [] end)%list.
Proof.
  cbv zeta. destruct (do_time_run float args h) as (_ & _ & _ & _ & ->).
  rewrite !stdout_app. cbn.
  destruct (scan_exn _) as [[]|], (scan_mop _); reflexivity.
Qed.

Lemma do_time_stderr (args : Args) (h : Host) :
  let sc := scan float (time_started h) (benchmark_output h) None None in
  stderr (log (do_time float args h initial_store).2) =
  match scan_exn sc with Some e => [e] | None => [] end.
Proof.
  cbv zeta. destruct (do_time_run float args h) as (_ & _ & _ & _ & ->).
  rewrite !stderr_app.
  rewrite scan_no_traceback.
  pose proof (scan_exn_parse float (time_started h) (benchmark_output h)
                None None) as Hp.
  destruct (scan_exn _) as [e|], (scan_mop _); cbn; try reflexivity;
    destruct (Hp e eq_refl) as [-> | ->]; reflexivity.
Qed.

(** C1 (as amended).  In timing mode the runtime duration of the report is
    the total duration minus the initialization duration, as an identity:
    the three duration lines format [i], [total - i] and [total], where
    [total] is the difference of the two clock readings of the main flow and
    [i] is the value left in [initialization_duration].  The bounds
    [0 <= i <= total] hold when the reading at the start is not later than
    the reading after the wait and every clock reading the reader thread
    takes (there is at most one, at the first phase-split marker it handles)
    lies between the two. *)
Theorem report_durations (args : Args) (h : Host) :
  let r := do_time float args h initial_store in
  let total := (time_waited h - time_started h)%Q in
  ∃ i : Q,
    initialization_duration r.2 = Some i
    ∧ reports (stdout (log r.2)) i total
    ∧ (clock_in_session float args h -> (0 <= i <= total)%Q).
Proof.
  cbv zeta.
  set (sc := scan float (time_started h) (benchmark_output h) None None).
  exists (or_ (scan_init sc) 0). split; [apply do_time_run|].
  split.
  - rewrite do_time_stdout. eexists _, _. reflexivity.
  - intros [Hle Hall]. apply or_zero_bounds; [lra|].
    intros x Hx.
    destruct (scan_init_read float (time_started h) (benchmark_output h)
                None None) as [H|(now & Hin & H)];
      fold sc in H; rewrite H in Hx; [discriminate|].
    injection Hx as <-.
    destruct (do_time_run float args h) as (_ & _ & _ & _ & Hlog).
    rewrite Hlog, !reader_clock_app, !Forall_app in Hall.
    destruct Hall as (_ & Hw & _).
    rewrite Forall_forall in Hw. specialize (Hw now Hin). lra.
Qed.

(** C3.  When no line of the benchmark's output contains the phase-split
    marker, the reported initialization duration is exactly zero and the
    runtime line reports the very value of the total line. *)
Theorem no_split_marker (args : Args) (h : Host) :
  Forall (fun l => has_split l = false) (benchmark_output h) ->
  let r := do_time float args h initial_store in
  let total := (time_waited h - time_started h)%Q in
  initialization_duration r.2 = Some 0%Q
  ∧ (total - 0)%Q = total
  ∧ ∃ echoed rest : list string,
      stdout (log r.2) =
      (echoed ++ [separator_line; initialization_line 0;
                  runtime_line total; total_line total] ++ rest)%list.
Proof.
  intros Hno. cbv zeta.
  pose proof (scan_init_no_split float (time_started h) (benchmark_output h)
                None None Hno) as Hi.
  split; [|split].
  - destruct (do_time_run float args h) as (_ & _ & -> & _). by rewrite Hi.
  - apply Qminus_0_r.
  - rewrite do_time_stdout, Hi. cbn [or_]. rewrite Qminus_0_r.
    eexists _, _. reflexivity.
Qed.

(** C7.  When no line of the benchmark's output contains the throughput
    marker, [do_time] ends with the [TypeError] of formatting [None]; the
    echoed lines, the separator and the three duration lines have been
    written and no throughput line follows them. *)
Theorem missing_throughput (args : Args) (h : Host) :
  Forall (fun l => has_mop l = false) (benchmark_output h) ->
  let r := do_time float args h initial_store in
  let total := (time_waited h - time_started h)%Q in
  r.1 = Raise TypeError
  ∧ exit_status r.1 = 1
  ∧ mop_s r.2 = None
  ∧ ∃ i : Q,
      initialization_duration r.2 = Some i
      ∧ stdout (log r.2) =
        (map fst (benchmark_output h)
         ++ [separator_line; initialization_line i;
             runtime_line (total - i)%Q; total_line total])%list.
Proof.
  intros Hno. cbv zeta.
  destruct (scan_no_mop float (time_started h) (benchmark_output h)
              None None Hno) as [Hm He].
  destruct (do_time_run float args h) as (Hr & _ & Hi & Hmop & _).
  rewrite Hm in Hr, Hmop.
  split; [exact Hr|]. split; [by rewrite Hr|]. split; [exact Hmop|].
  eexists. split; [exact Hi|].
  rewrite do_time_stdout, Hm, scan_echo by exact He. reflexivity.
Qed.

End Timing.

(** ** The two markers *)

(** The same host with another exit status of the benchmark. *)
Definition with_returncode (rc : Z) (h : Host) : Host :=
  {| environ := environ h; modprobe_msr := modprobe_msr h;
     out_dir := out_dir h; benchmark_output := benchmark_output h;
     benchmark_returncode := rc;
     time_started := time_started h; time_waited := time_waited h;
     uprof_pcm := uprof_pcm h; pipe_capacity := pipe_capacity h |}.

(** The same host with other output of the benchmark. *)
Definition with_output (out : list (string * Q)) (h : Host) : Host :=
  {| environ := environ h; modprobe_msr := modprobe_msr h;
     out_dir := out_dir h; benchmark_output := out;
     benchmark_returncode := benchmark_returncode h;
     time_started := time_started h; time_waited := time_waited h;
     uprof_pcm := uprof_pcm h; pipe_capacity := pipe_capacity h |}.

Section Markers.

Variable float : string -> option Q.

(** Every throughput line of [lines] has a fourth token that [float]
    accepts. *)
Definition throughput_lines_parse (lines : list (string * Q)) : Prop :=
  Forall (fun l => has_mop l = true -> ∃ x, fourth_token float l.1 = Ok x)
         lines.

Lemma scan_parse_no_exn (start_time : Q) (lines : list (string * Q))
    (i m : option Q) :
  throughput_lines_parse lines ->
  scan_exn (scan float start_time lines i m) = None.
Proof.
  revert i m. induction lines as [|[line now] rest IH]; intros i m H; [done|].
  inversion H as [|? ? H1 H2]; subst. unfold has_mop in H1; cbn in H1.
  cbn [scan].
  destruct (str_in MOP_S_MARKER line); cbn; [|by apply IH].
  destruct (eq_None m); cbn; [|by apply IH].
  destruct (H1 eq_refl) as [x ->]. cbn. by apply IH.
Qed.

(** The first line with the phase-split marker fixes the variable. *)
Lemma scan_first_split (start_time : Q) (pre post : list (string * Q))
    (line : string) (now : Q) (m : option Q) :
  Forall (fun l => has_split l = false) pre ->
  scan_exn (scan float start_time pre None m) = None ->
  str_in SPLIT_MARKER line = true ->
  scan_init (scan float start_time (pre ++ (line, now) :: post) None m)
  = Some (now - start_time)%Q.
Proof.
  intros Hpre Hexn Hline. rewrite scan_app. cbv zeta. rewrite Hexn.
  cbn [scan_cons scan_init].
  rewrite (scan_init_no_split float start_time pre None m Hpre).
  cbn [scan]. rewrite Hline. cbn.
  destruct (str_in MOP_S_MARKER line && eq_None _);
    [destruct (fourth_token float line)|]; cbn;
    rewrite ?scan_init_kept; reflexivity.
Qed.

(** The first line with the throughput marker fixes the variable, or ends
    the reader. *)
Lemma scan_first_mop (start_time : Q) (t : Tid) (pre post : list (string * Q))
    (line : string) (now : Q) (i : option Q) :
  Forall (fun l => has_mop l = false) pre ->
  str_in MOP_S_MARKER line = true ->
  let r := scan float start_time (pre ++ (line, now) :: post) i None in
  match fourth_token float line with
  | Ok x => scan_mop r = Some x ∧ scan_exn r = None
  | Raise e =>
      scan_mop r = None ∧ scan_exn r = Some e
      ∧ stdout (map (pair t) (scan_events r)) = (map fst pre ++ [line])%list
  end.
Proof.
  intros Hpre Hline. cbv zeta. rewrite scan_app. cbv zeta.
  destruct (scan_no_mop float start_time pre i None Hpre) as [Hm He].
  pose proof (scan_echo float start_time t pre i None He) as Hecho.
  rewrite He, Hm. cbn [scan]. rewrite Hline. cbn [andb eq_None].
  destruct (fourth_token float line) as [x|e];
    cbn [scan_cons scan_mop scan_exn scan_events].
  - apply scan_mop_kept.
  - repeat split. rewrite map_app, stdout_app, Hecho.
    f_equal. destruct (str_in SPLIT_MARKER line && eq_None _); cbn;
      by rewrite append_empty_r.
Qed.

(** C8.  The exit status of the benchmark is not looked at: with any other
    exit status [do_time] ends the same way, writes the same to standard
    output and standard error and leaves the same values in its variables;
    the separator and the three duration lines are written whatever the
    status is. *)
Theorem exit_status_ignored (args : Args) (h : Host) (rc : Z) :
  let r := do_time float args h initial_store in
  let r' := do_time float args (with_returncode rc h) initial_store in
  r'.1 = r.1
  ∧ stdout (log r'.2) = stdout (log r.2)
  ∧ stderr (log r'.2) = stderr (log r.2)
  ∧ initialization_duration r'.2 = initialization_duration r.2
  ∧ mop_s r'.2 = mop_s r.2
  ∧ (MainThread, EWait rc) ∈ log r'.2
  ∧ ∃ i : Q, reports (stdout (log r'.2)) i (time_waited h - time_started h)%Q.
Proof.
  cbv zeta.
  destruct (do_time_run float args h) as (H1 & _ & H2 & H3 & _).
  destruct (do_time_run float args (with_returncode rc h))
    as (H1' & _ & H2' & H3' & H4').
  rewrite H1, H1', H2, H2', H3, H3', !do_time_stdout, !do_time_stderr.
  repeat split; try reflexivity.
  - rewrite H4'. cbn [with_returncode benchmark_returncode].
    rewrite !elem_of_app. right. right. right. left. apply list_elem_of_here.
  - eexists. eexists _, _. reflexivity.
Qed.




(** C4.  First match wins, for both markers.  Let [tail_output] start with
    both variables unset on lines [pre ++ (line, now) :: post], where [pre]
    has no line with the marker and [line] has one.  For the phase-split
    marker, [initialization_duration] ends as the clock reading at [line]
    minus the start time or stays unset, whatever [post] holds, and it is
    set when no throughput line of [pre] ends the reader.  For the
    throughput marker, [mop_s] ends as the value of the fourth token of
    [line], or stays unset when that token has no value, whatever [post]
    holds. *)
Theorem first_match_wins (start_time : Q) (s : Store)
    (pre post : list (string * Q)) (line : string) (now : Q) :
  initialization_duration s = None ->
  mop_s s = None ->
  let s' := (tail_output float start_time (pre ++ (line, now) :: post) s).2 in
  (Forall (fun l => has_split l = false) pre ->
   str_in SPLIT_MARKER line = true ->
   (initialization_duration s' = Some (now - start_time)%Q
    ∨ initialization_duration s' = None)
   ∧ (throughput_lines_parse pre ->
      initialization_duration s' = Some (now - start_time)%Q))
  ∧ (Forall (fun l => has_mop l = false) pre ->
     str_in MOP_S_MARKER line = true ->
     mop_s s' = match fourth_token float line with
                | Ok x => Some x
                | Raise _ => None
                end).
Proof.
  intros Hi Hm. cbv zeta. rewrite tail_output_scan. cbn. rewrite Hi, Hm.
  split.
  - intros Hpre Hline.
    assert (Hgo : scan_exn (scan float start_time pre None None) = None ->
                  scan_init (scan float start_time
                               (pre ++ (line, now) :: post) None None)
                  = Some (now - start_time)%Q)
      by (intros; by apply scan_first_split).
    split; [|auto using scan_parse_no_exn].
    destruct (scan_exn (scan float start_time pre None None)) eqn:He;
      [right | left; by apply Hgo].
    rewrite scan_app. cbv zeta. rewrite He.
    by apply scan_init_no_split.
  - intros Hpre Hline.
    pose proof (scan_first_mop start_time MainThread pre post line now
                  None Hpre Hline) as H.
    cbv zeta in H. destruct (fourth_token float line); apply H.
Qed.

End Markers.

(** ** Profiling mode *)

(** The artifact path and the profiler command of a run. *)
Definition csv_output_path (args : Args) : string :=
  "out/" ++ basename (command args) ++ ".csv".

Definition profiler_command (args : Args) : list string :=
  [UPROF_PCM_EXE; "-m"; "memory"; "-a"; "-d";
   str (Qfloor (run_duration args)); "-o"; csv_output_path args].

(** What the thread of [run_profiler_on] logs. *)
Definition profiler_events (args : Args) (h : Host) : list (Tid * Event) :=
  match sleep_error (init_duration args) with
  | None =>
      [(WorkerThread, ESleep (init_duration args));
       (WorkerThread, ERun (profiler_command args) false)]
      ++ match uprof_pcm h with
         | CannotExecute => [(WorkerThread, EExcepthook OSError)]
         | _ => []
         end
  | Some e => [(WorkerThread, EExcepthook e)]
  end.

(** [time.sleep] raises nothing but the two exceptions. *)
Lemma sleep_error_cases (secs : Q) :
  sleep_error secs = None
  ∨ sleep_error secs = Some ValueError
  ∨ sleep_error secs = Some OverflowError.
Proof.
  unfold sleep_error.
  destruct (Qle_bool _ _ && Qle_bool _ _), (Qle_bool 0 secs); auto.
Qed.

(** Splits on the three ways [time.sleep] can go, rewriting with each. *)
Ltac sleep_cases secs :=
  let E := fresh "Esleep" in
  destruct (sleep_error_cases secs) as [E|[E|E]]; rewrite E.

(** The action starts the benchmark, respectively the profiler. *)
Definition is_benchmark_spawn (e : Event) : bool :=
  match e with
  | EPopen _ _ _ _ _ _ => true
  | _ => false
  end.

Definition is_profiler_spawn (e : Event) : bool :=
  match e with
  | ERun (exe :: _) _ => String.eqb exe UPROF_PCM_EXE
  | _ => false
  end.

(** The action reads the benchmark's output or the clock. *)
Definition observes_benchmark (e : Event) : bool :=
  match e with
  | EPopen _ _ stdout_pipe stderr_to_stdout _ _ =>
      stdout_pipe || stderr_to_stdout
  | ETime _ => true
  | _ => false
  end.

Definition modprobe_command : list string := ["sudo"; "modprobe"; "msr"].

Lemma do_profile_run (args : Args) (h : Host) :
  modprobe_msr h = Completed ->
  out_dir h ≠ RegularFile ->
  do_profile args h initial_store =
  (Ok tt,
   {| log :=
        ([(MainThread, ERun modprobe_command true);
          (MainThread, EMakedirs "out/" true);
          (MainThread, EPopen (command args) true false false false
                         (benchmark_env h));
          (MainThread, EThreadStart)]
         ++ profiler_events args h
         ++ [(MainThread, EWait (benchmark_returncode h));
             (MainThread, EJoin);
             (MainThread, EPrint separator_line);
             (MainThread, EPrint (complete_line (csv_output_path args)))])%list;
      running := MainThread;
      initialization_duration := None;
      mop_s := None |}).
Proof.
  destruct args as [cmd init run], h as [env mp od out rc t0 t1 up pc].
  cbn [modprobe_msr out_dir]. intros -> Hod.
  unfold do_profile, profiler_events, thread_start, run_profiler_on,
    time_sleep, try_except_CalledProcessError, subprocess_run, os_makedirs.
  cbn [command init_duration run_duration uprof_pcm].
  destruct od; [| |done]; sleep_cases init; destruct up; reflexivity.
Qed.

(** [basename] returns the last component of a path. *)
Lemma basename_from_no_slash (cur name : string) :
  str_in "/" name = false -> basename_from cur name = cur ++ name.
Proof.
  revert cur. induction name as [|c name IH]; intros cur H.
  - cbn. by rewrite append_empty_r.
  - change (String.prefix "/" (String c name) || str_in "/" name = false)
      in H.
    apply orb_false_elim in H as [Hp H]. cbn [basename_from].
    destruct (Ascii.eqb_spec c "/") as [->|Hc]; [by destruct name|].
    rewrite IH by exact H. clear. revert c name.
    induction cur as [|a cur IHc]; intros c name; [reflexivity|].
    change (String a ((cur ++ String c "") ++ name)
            = String a (cur ++ String c name)).
    by rewrite IHc.
Qed.

Lemma basename_from_dir (cur dir name : string) :
  basename_from cur (dir ++ String "/" name) = basename_from "" name.
Proof.
  revert cur. induction dir as [|c dir IH]; intros cur.
  - reflexivity.
  - change (basename_from cur (String c (dir ++ String "/" name))
            = basename_from "" name).
    cbn [basename_from]. destruct (Ascii.eqb c "/"); apply IH.
Qed.

Lemma basename_last (dir name : string) :
  str_in "/" name = false -> basename (dir ++ String "/" name) = name.
Proof.
  intros H. unfold basename.
  by rewrite basename_from_dir, basename_from_no_slash.
Qed.




(** C6.  When [sudo modprobe msr] does not complete, [do_profile] ends with
    exit status 1 and has started neither the benchmark nor the profiler:
    the log holds the [modprobe] command and, for a non-zero exit, the error
    message. *)
Theorem modprobe_failure (args : Args) (h : Host) :
  modprobe_msr h ≠ Completed ->
  let r := do_profile args h initial_store in
  exit_status r.1 = 1
  ∧ Forall (fun te => is_benchmark_spawn te.2 = false
                      ∧ is_profiler_spawn te.2 = false) (log r.2)
  ∧ log r.2 =
    (MainThread, ERun modprobe_command true)
    :: match modprobe_msr h with
       | NonZeroExit e =>
           [(MainThread,
             EPrint (("Error inserting msr kernel module: " ++ e) ++ LF))]
       | _ => []
       end.
Proof.
  destruct args as [cmd init run], h as [env mp od out rc t0 t1 up pc].
  cbn [modprobe_msr]. intros Hmp. cbv zeta.
  destruct mp as [|e|]; [done| |]; cbn; repeat split;
    repeat constructor.
Qed.

(** C9.  When the kernel module loads and nothing but a directory is in the
    way at [out/] (the directory may exist already), [do_profile] ends
    normally; its first three actions are the [modprobe] command,
    [os.makedirs('out/', exist_ok=True)] and the start of the benchmark, in
    this order, and no other action starts the benchmark; the completion
    line names [out/<basename>.csv], where the basename of [dir/name] is
    [name] for a [name] without a slash. *)
Theorem artifact_path (args : Args) (h : Host) :
  modprobe_msr h = Completed ->
  out_dir h ≠ RegularFile ->
  let r := do_profile args h initial_store in
  let path := "out/" ++ basename (command args) ++ ".csv" in
  r.1 = Ok tt
  ∧ makedirs true (out_dir h) = Ok Directory
  ∧ (∃ rest,
       log r.2 =
       [(MainThread, ERun modprobe_command true);
        (MainThread, EMakedirs "out/" true);
        (MainThread, EPopen (command args) true false false false
                       (benchmark_env h))] ++ rest
       ∧ Forall (fun te => is_benchmark_spawn te.2 = false) rest)%list
  ∧ last (stdout (log r.2)) = Some (complete_line path)
  ∧ (∀ dir name, command args = dir ++ String "/" name ->
        str_in "/" name = false -> path = "out/" ++ name ++ ".csv").
Proof.
  intros Hm Hod. cbv zeta. rewrite do_profile_run by assumption.
  cbn [fst snd log]. split; [reflexivity|]. split.
  { destruct (out_dir h); done. }
  split.
  { eexists. split; [reflexivity|].
    unfold profiler_events.
    sleep_cases (init_duration args); destruct (uprof_pcm h);
      repeat constructor. }
  split.
  { unfold profiler_events.
    sleep_cases (init_duration args); destruct (uprof_pcm h); reflexivity. }
  intros dir name -> Hname. by rewrite basename_last.
Qed.

(** C10.  In profiling mode the benchmark's output is not read: the run is
    the same whatever the benchmark writes, no action opens a pipe to the
    benchmark or reads the clock, and the two variables of the timing report
    stay unset.  When the script gets past its set-up, all it writes is the
    separator and the completion line naming the artifact, and it writes
    them after the wait for the benchmark and the join of the profiler
    thread, which are the last actions before them. *)
Theorem profile_output_not_scanned (args : Args) (h : Host)
    (out : list (string * Q)) :
  let r := do_profile args h initial_store in
  do_profile args (with_output out h) initial_store = r
  ∧ initialization_duration r.2 = None
  ∧ mop_s r.2 = None
  ∧ Forall (fun te => observes_benchmark te.2 = false) (log r.2)
  ∧ (modprobe_msr h = Completed -> out_dir h ≠ RegularFile ->
     stdout (log r.2) =
       [separator_line; complete_line (csv_output_path args)]
     ∧ ∃ before,
         stdout before = []
         ∧ log r.2 =
           (before
            ++ [(MainThread, EWait (benchmark_returncode h));
                (MainThread, EJoin);
                (MainThread, EPrint separator_line);
                (MainThread,
                 EPrint (complete_line (csv_output_path args)))])%list).
Proof.
  cbv zeta. split; [reflexivity|].
  assert (Hall : initialization_duration (do_profile args h initial_store).2
                 = None
               ∧ mop_s (do_profile args h initial_store).2 = None
               ∧ Forall (fun te => observes_benchmark te.2 = false)
                   (log (do_profile args h initial_store).2)).
  { destruct (modprobe_msr h) eqn:Hm, (out_dir h) eqn:Hod;
      try (rewrite do_profile_run by (rewrite ?Hod; done);
           cbn [snd log initialization_duration mop_s];
           unfold profiler_events;
           sleep_cases (init_duration args); destruct (uprof_pcm h);
           repeat split; repeat constructor);
      destruct args as [cmd init run], h as [env mp od o rc t0 t1 up pc];
      cbn [modprobe_msr out_dir] in Hm, Hod; subst mp od;
      repeat split; repeat constructor. }
  destruct Hall as (H1 & H2 & H3). repeat (split; [assumption|]).
  intros Hm Hod. rewrite do_profile_run by assumption. cbn [snd log].
  split.
  - unfold profiler_events.
    sleep_cases (init_duration args); destruct (uprof_pcm h); reflexivity.
  - eexists. split; [|by rewrite app_assoc].
    unfold profiler_events.
    sleep_cases (init_duration args); destruct (uprof_pcm h); reflexivity.
Qed.

(** ** Concrete runs *)

Definition bt_args : Args :=
  {| command := "./bin/bt.C.x"; init_duration := 2; run_duration := 97 # 10 |}.

Definition foo_args : Args :=
  {| command := "/bin/foo"; init_duration := 2; run_duration := 97 # 10 |}.

(** The reader handles the marker line after the main flow has read the
    clock for the end of the benchmark. *)
Definition late_marker_host : Host :=
  {| environ := ∅; modprobe_msr := Completed; out_dir := Absent;
     benchmark_output :=
       [(" Initialization time = 4.0 seconds" ++ LF, 106);
        (" Mop/s total     =   12345.67" ++ LF, 107)]%Q;
     benchmark_returncode := 0;
     time_started := 100; time_waited := 105; uprof_pcm := Completed;
     pipe_capacity := 65536%N |}.


(** The benchmark prints neither marker. *)
Definition quiet_host : Host :=
  {| environ := ∅; modprobe_msr := Completed; out_dir := Directory;
     benchmark_output := [("hello" ++ LF, 101)]%Q;
     benchmark_returncode := 3;
     time_started := 100; time_waited := 104; uprof_pcm := Completed;
     pipe_capacity := 65536%N |}.

(** [modprobe] exits with status 1. *)
Definition no_msr_host : Host :=
  {| environ := ∅;
     modprobe_msr :=
       NonZeroExit "Command '['sudo', 'modprobe', 'msr']' returned non-zero exit status 1.";
     out_dir := Absent; benchmark_output := []; benchmark_returncode := 0;
     time_started := 100; time_waited := 104; uprof_pcm := Completed;
     pipe_capacity := 65536%N |}.

(** Counterexample to C1 as stated: the marker line is handled at 106, the
    wait returns at 105; the report shows an initialization of 6.00 seconds
    in a total of 5.00 and a runtime of -1.00. *)
Lemma late_marker_counterexample :
  let h := late_marker_host in
  let r := do_time decimal_float bt_args h initial_store in
  r.1 = Ok tt
  ∧ initialization_duration r.2 = Some 6%Q
  ∧ (time_waited h - time_started h)%Q = 5%Q
  ∧ ¬ (0 <= 6 <= 5)%Q
  ∧ stdout (log r.2) =
    [" Initialization time = 4.0 seconds" ++ LF;
     " Mop/s total     =   12345.67" ++ LF;
     "----------------------------------------" ++ LF;
     "Initialization duration: 6.00 seconds" ++ LF;
     "Runtime duration: -1.00 seconds" ++ LF;
     "Total execution duration: 5.00 seconds" ++ LF;
     "Mop/s: 12345.67" ++ LF].
Proof.
  cbv zeta. repeat split; try (vm_compute; reflexivity).
  intros [_ H]. vm_compute in H. by apply H.
Qed.

(** The marker is printed twice; the reader handles the second one after
    the wait has returned, and reads the clock at the first only. *)
Definition two_marker_host : Host :=
  {| environ := ∅; modprobe_msr := Completed; out_dir := Absent;
     benchmark_output :=
       [(" Initialization time = 2.0 seconds" ++ LF, 102);
        (" Mop/s total     =   12345.67" ++ LF, 110);
        (" Initialization time = 2.0 seconds" ++ LF, 120)]%Q;
     benchmark_returncode := 0;
     time_started := 100; time_waited := 111; uprof_pcm := Completed;
     pipe_capacity := 65536%N |}.

Lemma report_durations_witness :
  let h := two_marker_host in
  let r := do_time decimal_float bt_args h initial_store in
  reader_clock (log r.2) = [102%Q]
  ∧ clock_in_session decimal_float bt_args h
  ∧ ∃ i : Q,
      initialization_duration r.2 = Some i
      ∧ (0 <= i <= time_waited h - time_started h)%Q.
Proof.
  cbv zeta.
  assert (Hr : reader_clock
                 (log (do_time decimal_float bt_args two_marker_host
                         initial_store).2) = [102%Q]) by reflexivity.
  assert (Hc : clock_in_session decimal_float bt_args two_marker_host).
  { split; [by apply Qle_bool_imp_le|]. rewrite Hr.
    apply List.Forall_cons; [split; by apply Qle_bool_imp_le|].
    apply List.Forall_nil. }
  split; [exact Hr|]. split; [exact Hc|].
  destruct (report_durations decimal_float bt_args two_marker_host)
    as (i & Hi & _ & Hb).
  exists i. split; [exact Hi | exact (Hb Hc)].
Defined.



Lemma no_split_marker_witness :
  let h := quiet_host in
  let r := do_time decimal_float bt_args h initial_store in
  Forall (fun l => has_split l = false) (benchmark_output h)
  ∧ initialization_duration r.2 = Some 0%Q.
Proof.
  cbv zeta.
  assert (H : Forall (fun l => has_split l = false)
                (benchmark_output quiet_host)) by (repeat constructor).
  split; [exact H|].
  exact (proj1 (no_split_marker decimal_float bt_args quiet_host H)).
Defined.

Lemma missing_throughput_witness :
  let h := quiet_host in
  let r := do_time decimal_float bt_args h initial_store in
  Forall (fun l => has_mop l = false) (benchmark_output h)
  ∧ r.1 = Raise TypeError
  ∧ exit_status r.1 = 1.
Proof.
  cbv zeta.
  assert (H : Forall (fun l => has_mop l = false)
                (benchmark_output quiet_host)) by (repeat constructor).
  split; [exact H|].
  destruct (missing_throughput decimal_float bt_args quiet_host H)
    as (Hr & He & _).
  split; [exact Hr | exact He].
Defined.

(** A no-break space (U+00A0), and a throughput line that has one before
    its equals sign. *)
Definition NBSP : string :=
  String (ascii_of_nat 194) (String (ascii_of_nat 160) "").

Definition nbsp_line : string := " Mop/s total" ++ NBSP ++ "= 12.5" ++ LF.

Lemma first_match_wins_witness :
  let banner := [("NAS Parallel Benchmarks" ++ LF, 100%Q)] in
  let s1 := (tail_output decimal_float 100
               (banner
                ++ (" Initialization time = 2.0 seconds" ++ LF, 102%Q)
                :: [(" Initialization time = 9.9 seconds" ++ LF, 107%Q)])
               initial_store).2 in
  let s2 := (tail_output decimal_float 100
               (banner
                ++ (nbsp_line, 110%Q)
                :: [(" Mop/s total     =   99.9" ++ LF, 111%Q)])
               initial_store).2 in
  initialization_duration s1 = Some (102 - 100)%Q
  ∧ split nbsp_line = ["Mop/s"; "total"; "="; "12.5"]
  ∧ mop_s s2 = Some 12.5%Q.
Proof.
  cbv zeta. split; [|split; [reflexivity|]].
  - apply (first_match_wins decimal_float 100 initial_store
             [("NAS Parallel Benchmarks" ++ LF, 100%Q)]
             [(" Initialization time = 9.9 seconds" ++ LF, 107%Q)]
             (" Initialization time = 2.0 seconds" ++ LF) 102
             eq_refl eq_refl).
    + repeat constructor.
    + reflexivity.
    + repeat constructor. discriminate.
  - refine (proj2 (first_match_wins decimal_float 100 initial_store
                     [("NAS Parallel Benchmarks" ++ LF, 100%Q)]
                     [(" Mop/s total     =   99.9" ++ LF, 111%Q)]
                     nbsp_line 110 eq_refl eq_refl) _ _).
    + repeat constructor.
    + reflexivity.
Defined.


Lemma modprobe_failure_witness :
  let r := do_profile foo_args no_msr_host initial_store in
  exit_status r.1 = 1.
Proof.
  cbv zeta.
  refine (proj1 (modprobe_failure foo_args no_msr_host _)). discriminate.
Defined.

Lemma artifact_path_witness :
  let r := do_profile foo_args quiet_host initial_store in
  r.1 = Ok tt
  ∧ last (stdout (log r.2))
    = Some ("Profiling complete; output: out/foo.csv" ++ LF).
Proof.
  cbv zeta.
  assert (Hod : out_dir quiet_host ≠ RegularFile) by discriminate.
  destruct (artifact_path foo_args quiet_host eq_refl Hod)
    as (H1 & _ & _ & H2 & _).
  split; [exact H1 | exact H2].
Defined.

Lemma profile_output_not_scanned_witness :
  let r := do_profile foo_args sample_host initial_store in
  stdout (log r.2) =
  ["----------------------------------------" ++ LF;
   "Profiling complete; output: out/foo.csv" ++ LF].
Proof.
  cbv zeta.
  assert (Hod : out_dir sample_host ≠ RegularFile) by discriminate.
  destruct (profile_output_not_scanned foo_args sample_host [])
    as (_ & _ & _ & _ & H).
  exact (proj1 (H eq_refl Hod)).
Defined.

(** * Further properties of [npbtool.py] *)

(** ** What the reader logs *)

Definition is_reader_event (e : Event) : bool :=
  match e with
  | EPrint _ | ETime _ => true
  | _ => false
  end.

Lemma scan_events_kind (float : string -> option Q) (start_time : Q)
    (lines : list (string * Q)) (i m : option Q) :
  Forall (fun e => is_reader_event e = true)
         (scan_events (scan float start_time lines i m)).
Proof.
  revert i m. induction lines as [|[line now] rest IH]; intros i m.
  - constructor.
  - cbn [scan].
    destruct (str_in SPLIT_MARKER line && eq_None i),
             (str_in MOP_S_MARKER line && eq_None m);
      try destruct (fourth_token float line);
      cbn [scan_cons scan_events app];
      repeat (apply List.Forall_cons; [reflexivity|]);
      solve [apply IH | constructor].
Qed.


Lemma filter_spawn_reader (t : Tid) (evs : list Event) :
  Forall (fun e => is_reader_event e = true) evs ->
  List.filter (fun te => is_benchmark_spawn te.2) (map (pair t) evs) = [].
Proof.
  induction 1 as [|e evs He _ IH]; [reflexivity|].
  cbn. destruct e; try discriminate He; exact IH.
Qed.

Lemma filter_spawn_excepthook (e : option Exn) :
  List.filter (fun te => is_benchmark_spawn te.2) (excepthook_events e) = [].
Proof. destruct e as [[]|]; reflexivity. Qed.

(** The actions of profiling mode that timing mode has no use for:
    running a command to completion, making a directory, sleeping. *)
Definition is_profiling_action (e : Event) : bool :=
  match e with
  | ERun _ _ | EMakedirs _ _ | ESleep _ => true
  | _ => false
  end.

Section MoreTiming.

Variable float : string -> option Q.

(** X1.  Both modes start the benchmark exactly once, through the shell,
    with the inherited environment in which [OMP_NUM_THREADS] is set to
    [64]: that variable is overridden, every other one is passed on
    unchanged. *)
Theorem benchmark_environment (args : Args) (h : Host) :
  let env := benchmark_env h in
  env !! "OMP_NUM_THREADS" = Some "64"
  ∧ (∀ k : string, k ≠ "OMP_NUM_THREADS" -> env !! k = environ h !! k)
  ∧ List.filter (fun te => is_benchmark_spawn te.2)
      (log (do_time float args h initial_store).2)
    = [(MainThread, EPopen (command args) true true true true env)]
  ∧ (modprobe_msr h = Completed -> out_dir h ≠ RegularFile ->
     List.filter (fun te => is_benchmark_spawn te.2)
       (log (do_profile args h initial_store).2)
     = [(MainThread, EPopen (command args) true false false false env)]).
Proof.
  cbv zeta. unfold benchmark_env at 1 2.
  split; [apply lookup_insert_eq|].
  split; [intros k Hk; by apply lookup_insert_ne|].
  split.
  - destruct (do_time_run float args h) as (_ & _ & _ & _ & ->).
    rewrite !List.filter_app, filter_spawn_reader, filter_spawn_excepthook
      by apply scan_events_kind.
    cbn. by destruct (scan_mop _).
  - intros Hm Hod. rewrite do_profile_run by assumption. cbn [snd log].
    unfold profiler_events.
    sleep_cases (init_duration args); destruct (uprof_pcm h); reflexivity.
Qed.


(** X3.  Timing mode runs no command to completion, makes no directory and
    does not sleep: nothing of the set-up of profiling mode ([sudo modprobe],
    [os.makedirs], the profiler) happens in [do_time]. *)
Theorem timing_has_no_profiling_action (args : Args) (h : Host) :
  Forall (fun te => is_profiling_action te.2 = false)
         (log (do_time float args h initial_store).2).
Proof.
  destruct (do_time_run float args h) as (_ & _ & _ & _ & ->).
  rewrite !Forall_app. repeat split.
  - repeat constructor.
  - rewrite Forall_map.
    eapply Forall_impl; [apply scan_events_kind|].
    intros [] He; try discriminate He; reflexivity.
  - destruct (scan_exn _) as [[]|]; repeat constructor.
  - repeat constructor.
  - destruct (scan_mop _); repeat constructor.
Qed.

End MoreTiming.

Lemma sleep_error_negative (secs : Q) :
  (secs < 0)%Q ->
  sleep_error secs =
  Some (if Qle_bool (-9223372036854775808) (secs * 1000000000)
        then ValueError else OverflowError).
Proof.
  intros Hneg. unfold sleep_error. cbv zeta.
  assert (E2 : Qle_bool (secs * 1000000000) 9223372036854775807 = true)
    by (apply Qle_bool_iff; lra).
  assert (E3 : Qle_bool 0 secs = false).
  { destruct (Qle_bool 0 secs) eqn:E; [|reflexivity].
    apply Qle_bool_iff in E. lra. }
  rewrite E2, E3.
  destruct (Qle_bool (-9223372036854775808) (secs * 1000000000));
    reflexivity.
Qed.

(** X4.  With a negative [init_duration], [time.sleep] raises in the
    profiler thread ([ValueError], or [OverflowError] when the delay is
    below the -2^63 nanoseconds a signed 64-bit integer holds): no profiler
    command is run, the exception goes to standard error, and [do_profile]
    still writes the completion line and ends normally (exit status 0). *)
Theorem negative_delay_skips_profiler (args : Args) (h : Host) :
  modprobe_msr h = Completed ->
  out_dir h ≠ RegularFile ->
  (init_duration args < 0)%Q ->
  let r := do_profile args h initial_store in
  r.1 = Ok tt
  ∧ exit_status r.1 = 0
  ∧ Forall (fun te => is_profiler_spawn te.2 = false) (log r.2)
  ∧ stderr (log r.2) =
    [if Qle_bool (-9223372036854775808) (init_duration args * 1000000000)
     then ValueError else OverflowError]
  ∧ stdout (log r.2) =
    [separator_line; complete_line (csv_output_path args)].
Proof.
  intros Hm Hod Hneg. cbv zeta. rewrite do_profile_run by assumption.
  cbn [fst snd log]. unfold profiler_events.
  rewrite (sleep_error_negative _ Hneg).
  destruct (Qle_bool (-9223372036854775808)
              (init_duration args * 1000000000));
    repeat split; repeat constructor.
Qed.


(** X6.  When a regular file is in the way at [out/], [os.makedirs] raises
    [FileExistsError] out of [do_profile]: the exit status is 1, and after
    the [modprobe] command and the attempt to make the directory nothing
    else happens; the benchmark is not started. *)
Theorem out_is_a_file (args : Args) (h : Host) :
  modprobe_msr h = Completed ->
  out_dir h = RegularFile ->
  let r := do_profile args h initial_store in
  r.1 = Raise FileExistsError
  ∧ exit_status r.1 = 1
  ∧ log r.2 = [(MainThread, ERun modprobe_command true);
               (MainThread, EMakedirs "out/" true)].
Proof.
  destruct args as [cmd init run], h as [env mp od out rc t0 t1 up pc].
  cbn [modprobe_msr out_dir]. intros -> ->. cbv zeta. repeat split.
Qed.

(** ** The entry point of [npbtool.py] *)

(** What [parser.parse_args()] returns for this parser when it returns: the
    namespace of a run without subcommand ([command] is [None]), of the
    [time] subcommand, or of the [profile] subcommand.  The subparsers store
    the required [--command] option under the destination [command], which
    is also where the subcommand name is stored; the option is parsed last
    and its value is what [args.command] holds. *)
Inductive Namespace : Type :=
| NoSubcommand
| TimeNamespace (command : string)
| ProfileNamespace (init_duration run_duration : Q) (command : string).

(** [args.command]. *)
Definition namespace_command (args : Namespace) : option string :=
  match args with
  | NoSubcommand => None
  | TimeNamespace c | ProfileNamespace _ _ c => Some c
  end.

(** The truth value of [None] or a string. *)
Definition truthy (x : option string) : bool :=
  match x with
  | Some (String _ _) => true
  | _ => false
  end.

(** [main], after [parse_args]; [help] is what [parser.print_help()]
    writes. *)
Definition main (float : string -> option Q) (help : string)
    (args : Namespace) (h : Host) : M unit :=
  if truthy (namespace_command args) then
    match args with
    | TimeNamespace c =>
        do_time float {| command := c; init_duration := 0;
                         run_duration := 0 |} h
    | ProfileNamespace i r c =>
        do_profile {| command := c; init_duration := i;
                      run_duration := r |} h
    | NoSubcommand => mret tt
    end
  else print_end help "".

(** X7.  [main] tests the truth value of [args.command], which holds the
    value of [--command]: with an empty command string, as with no
    subcommand at all, it writes the help text and does nothing else,
    whichever subcommand was chosen; no process is started. *)
Theorem main_empty_command (float : string -> option Q) (help : string)
    (args : Namespace) (h : Host) :
  namespace_command args = None ∨ namespace_command args = Some "" ->
  let r := main float help args h initial_store in
  r.1 = Ok tt
  ∧ log r.2 = [(MainThread, EPrint help)].
Proof.
  intros H. cbv zeta. unfold main.
  assert (Ht : truthy (namespace_command args) = false)
    by (destruct H as [-> | ->]; reflexivity).
  rewrite Ht. cbn. by rewrite append_empty_r.
Qed.

(** * [summarize.py]: statistics from the results file

    The rows that [csv.DictReader] yields are maps from column name to
    text; numbers are exact rationals, as in the first part; [float] and
    [scipy.stats.hmean] are parameters. *)

Module Summarize.

Inductive Exn : Type :=
| KeyError (key : string)
| ValueError
| ZeroDivisionError
| FileNotFoundError.

Inductive Result (A : Type) : Type :=
| Ok (a : A)
| Raise (e : Exn).
Arguments Ok {A} a.
Arguments Raise {A} e.

#[global] Instance Result_ret : MRet Result := fun A a => Ok a.

#[global] Instance Result_bind : MBind Result := fun A B f r =>
  match r with
  | Ok a => f a
  | Raise e => Raise e
  end.

(** A computation that prints: the lines written so far are kept when an
    exception is raised. *)
Definition P (A : Type) : Type := list string -> Result A * list string.

#[global] Instance P_ret : MRet P := fun A a out => (Ok a, out).

#[global] Instance P_bind : MBind P := fun A B f m out =>
  match m out with
  | (Ok a, out') => f a out'
  | (Raise e, out') => (Raise e, out')
  end.

Definition lift {A : Type} (r : Result A) : P A := fun out => (r, out).

(** [print(s)]. *)
Definition print (s : string) : P unit := fun out =>
  (Ok tt, (out ++ [(s ++ LF)%string])%list).

(** [for x in l: body(x)]. *)
Fixpoint for_ {A : Type} (l : list A) (body : A -> P unit) : P unit :=
  match l with
  | [] => mret tt
  | x :: l' => body x ;; for_ l' body
  end.

(** [d[k]] for a dict. *)
Definition getitem {V : Type} (d : gmap string V) (k : string) : Result V :=
  match d !! k with
  | Some v => Ok v
  | None => Raise (KeyError k)
  end.

(** [x / y] for floats. *)
Definition truediv (x y : Q) : Result Q :=
  if Qeq_bool y 0 then Raise ZeroDivisionError else Ok (x / y)%Q.

(** [sum(l)] and [len(l)]. *)
Definition sum (l : list Q) : Q := fold_left Qplus l 0%Q.
Definition len {A : Type} (l : list A) : Q := inject_Z (Z.of_nat (List.length l)).

Definition power_w : gmap string Q := {[ "cpu" := 250%Q; "gpu" := 250%Q ]}.

Definition mem_energy_pj_bit : gmap string Q :=
  {[ "cpu" := 22%Q; "gpu" := 5.9%Q ]}.

(** The inner dicts of [data]: column name to list of values, in insertion
    order. *)
Abbreviation Inner := (list (string * list Q)).
Abbreviation Data := (gmap string (list (string * list Q))).

(** [inner[col].append(x)]. *)
Fixpoint inner_append (inner : Inner) (col : string) (x : Q) : Result Inner :=
  match inner with
  | [] => Raise (KeyError col)
  | (k, vals) :: rest =>
      if String.eqb k col then Ok ((k, (vals ++ [x])%list) :: rest)
      else match inner_append rest col x with
           | Ok rest' => Ok ((k, vals) :: rest')
           | Raise e => Raise e
           end
  end.

(** [inner[col]]. *)
Fixpoint inner_get (inner : Inner) (col : string) : Result (list Q) :=
  match inner with
  | [] => Raise (KeyError col)
  | (k, vals) :: rest =>
      if String.eqb k col then Ok vals else inner_get rest col
  end.

(** [data[arch][col].append(x)]. *)
Definition append (data : Data) (arch col : string) (x : Q) : Result Data :=
  inner ← getitem data arch ;
  inner' ← inner_append inner col x ;
  mret (<[arch := inner']> data).

(** What one row contributes. *)
Record Stats : Type := mkStats {
  benchmark : string;
  benchmark_class : string;
  arch : string;
  g_ops_s : Q;
  mem_bw_gib_s : Q;
  bytes_op : Q;
  nj_op : Q;
  cmp_power_w : Q;
  mem_power_w : Q
}.

Definition empty_inner : Inner :=
  [("g_ops_s", []); ("mem_bw_gib_s", []); ("bytes_op", []); ("nj_op", []);
   ("cmp_power_w", []); ("mem_power_w", [])].

Section Functions.

Variable float : string -> option Q.
Variable hmean : list Q -> Result Q.

Definition py_float (s : string) : Result Q :=
  match float s with
  | Some x => Ok x
  | None => Raise ValueError
  end.

(** The body of the loop of [do_individual] up to the values of the row. *)
Definition row_stats (row : gmap string string) : Result Stats :=
  benchmark ← getitem row "BENCHMARK" ;
  benchmark_class ← getitem row "CLASS" ;
  arch ← getitem row "ARCH" ;
  m_ops_s ← getitem row "OPS_MOPS_S" ≫= py_float ;
  let g_ops_s := (m_ops_s / 1000)%Q in
  rd ← getitem row "MEM_BW_RD_GB_S" ≫= py_float ;
  let mem_bw_rd_bytes_s := (rd * 1000000000)%Q in
  wr ← getitem row "MEM_BW_WR_GB_S" ≫= py_float ;
  let mem_bw_wr_bytes_s := (wr * 1000000000)%Q in
  let mem_bw_bytes_s := (mem_bw_rd_bytes_s + mem_bw_wr_bytes_s)%Q in
  let mem_bw_gib_s := (mem_bw_bytes_s / 1073741824)%Q in
  let mem_bw_bits_s := (mem_bw_bytes_s * 8)%Q in
  e ← getitem mem_energy_pj_bit arch ;
  let mem_power_w := (mem_bw_bits_s * e * (1 # 1000000000000))%Q in
  p ← getitem power_w arch ;
  let cmp_power_w := (p - mem_power_w)%Q in
  let ops_s := (m_ops_s * 1000000)%Q in
  bytes_op ← truediv mem_bw_bytes_s ops_s ;
  p' ← getitem power_w arch ;
  let power_nj_s := (p' * 1000000000)%Q in
  nj_op ← truediv power_nj_s ops_s ;
  mret {| benchmark := benchmark; benchmark_class := benchmark_class;
          arch := arch; g_ops_s := g_ops_s; mem_bw_gib_s := mem_bw_gib_s;
          bytes_op := bytes_op; nj_op := nj_op;
          cmp_power_w := cmp_power_w; mem_power_w := mem_power_w |}.

(** The six [append]s of the loop body. *)
Definition append_stats (data : Data) (st : Stats) : Result Data :=
  data ← append data (arch st) "g_ops_s" (g_ops_s st) ;
  data ← append data (arch st) "mem_bw_gib_s" (mem_bw_gib_s st) ;
  data ← append data (arch st) "bytes_op" (bytes_op st) ;
  data ← append data (arch st) "nj_op" (nj_op st) ;
  data ← append data (arch st) "cmp_power_w" (cmp_power_w st) ;
  append data (arch st) "mem_power_w" (mem_power_w st).

(** The line printed for a row. *)
Definition row_line (st : Stats) : string :=
  "[" ++ arch st ++ "] " ++ benchmark st ++ "." ++ benchmark_class st ++ ": "
  ++ format_2f (g_ops_s st) ++ " G ops/s "
  ++ "| " ++ format_2f (mem_bw_gib_s st) ++ " GiB/s "
  ++ "| " ++ format_2f (bytes_op st) ++ " bytes/op "
  ++ "| " ++ format_2f (nj_op st) ++ " nJ/op"
  ++ "| " ++ format_2f (cmp_power_w st) ++ " W (compute) "
  ++ "| " ++ format_2f (mem_power_w st) ++ " W (memory) ".

Definition do_row (row : gmap string string) (data : Data) : P Data :=
  st ← lift (row_stats row) ;
  data ← lift (append_stats data st) ;
  print (row_line st) ;;
  mret data.

Fixpoint do_rows (rows : list (gmap string string)) (data : Data) : P Data :=
  match rows with
  | [] => mret data
  | row :: rest => data ← do_row row data ; do_rows rest data
  end.

(** [do_individual]; [csv] is [None] when the file cannot be opened. *)
Definition do_individual (csv : option (list (gmap string string))) : P Data :=
  let inner := empty_inner in
  let data : Data := {[ "cpu" := inner; "gpu" := inner ]} in
  match csv with
  | None => lift (Raise FileNotFoundError)
  | Some rows =>
      print (str_mul "-" 25 ++ " per-benchmark " ++ str_mul "-" 25) ;;
      do_rows rows data
  end.

(** The line printed for a column, and for the powers of an architecture
    (the three arguments of [print] are joined by spaces). *)
Definition hmean_line (arch col : string) (m : Q) : string :=
  "[" ++ arch ++ "] " ++ col ++ ": " ++ format_2f m.

Definition avg_power_line (arch : string)
    (avg_cmp_power_w avg_mem_power_w pct_mem_power : Q) : string :=
  ("[" ++ arch ++ "] avg. cmp. power = " ++ format_2f avg_cmp_power_w ++ ";")
  ++ " " ++ ("avg. mem. power = " ++ format_2f avg_mem_power_w ++ " ")
  ++ " " ++ ("(" ++ format_2f pct_mem_power ++ "%)").

Definition do_hmeans (data : Data) : P unit :=
  print (str_mul "-" 25 ++ " h-means " ++ str_mul "-" 25) ;;
  for_ ["cpu"; "gpu"] (fun arch =>
    inner ← lift (getitem data arch) ;
    for_ inner (fun '(col, vals) =>
      if str_in "power" col then mret tt
      else m ← lift (hmean vals) ;
           print (hmean_line arch col m))).

Definition do_avg_power (data : Data) : P unit :=
  print (str_mul "-" 25 ++ " avg. power " ++ str_mul "-" 25) ;;
  for_ ["cpu"; "gpu"] (fun arch =>
    inner ← lift (getitem data arch) ;
    vals ← lift (inner_get inner "cmp_power_w") ;
    inner2 ← lift (getitem data arch) ;
    vals2 ← lift (inner_get inner2 "cmp_power_w") ;
    avg_cmp_power_w ← lift (truediv (sum vals) (len vals2)) ;
    p ← lift (getitem power_w arch) ;
    let avg_mem_power_w := (p - avg_cmp_power_w)%Q in
    p' ← lift (getitem power_w arch) ;
    q ← lift (truediv avg_mem_power_w p') ;
    let pct_mem_power := (q * 100)%Q in
    print (avg_power_line arch avg_cmp_power_w avg_mem_power_w
             pct_mem_power)).

Definition main (csv : option (list (gmap string string))) : P unit :=
  data ← do_individual csv ;
  do_hmeans data ;;
  do_avg_power data.

End Functions.

(** The harmonic mean of positive values, to stand for [hmean] where a
    concrete run is evaluated. *)
Definition harmonic_mean (l : list Q) : Result Q :=
  truediv (len l) (sum (map Qinv l)).

Definition row_of (b c a ops rd wr : string) : gmap string string :=
  {[ "BENCHMARK" := b; "CLASS" := c; "ARCH" := a; "OPS_MOPS_S" := ops;
     "MEM_BW_RD_GB_S" := rd; "MEM_BW_WR_GB_S" := wr ]}.

Definition sample_rows : list (gmap string string) :=
  [row_of "bt" "C" "cpu" "50000" "100" "50";
   row_of "bt" "C" "gpu" "400000" "600" "300";
   row_of "cg" "C" "cpu" "2000" "150" "10"].

End Summarize.


(** ** Properties of [summarize.py] *)

Module SummarizeFacts.

Import Summarize.

(** The six columns of one architecture. *)
Record Columns : Type := mkColumns {
  col_g_ops_s : list Q;
  col_mem_bw_gib_s : list Q;
  col_bytes_op : list Q;
  col_nj_op : list Q;
  col_cmp_power_w : list Q;
  col_mem_power_w : list Q
}.

Definition no_columns : Columns := mkColumns [] [] [] [] [] [].

Definition inner_of (c : Columns) : Inner :=
  [("g_ops_s", col_g_ops_s c); ("mem_bw_gib_s", col_mem_bw_gib_s c);
   ("bytes_op", col_bytes_op c); ("nj_op", col_nj_op c);
   ("cmp_power_w", col_cmp_power_w c); ("mem_power_w", col_mem_power_w c)].

Definition data_of (cpu gpu : Columns) : Data :=
  {[ "cpu" := inner_of cpu; "gpu" := inner_of gpu ]}.

(** The columns with the values of one more row. *)
Definition push (st : Stats) (c : Columns) : Columns :=
  {| col_g_ops_s := col_g_ops_s c ++ [g_ops_s st];
     col_mem_bw_gib_s := col_mem_bw_gib_s c ++ [mem_bw_gib_s st];
     col_bytes_op := col_bytes_op c ++ [bytes_op st];
     col_nj_op := col_nj_op c ++ [nj_op st];
     col_cmp_power_w := col_cmp_power_w c ++ [cmp_power_w st];
     col_mem_power_w := col_mem_power_w c ++ [mem_power_w st] |}%list.

Lemma append_stats_cpu (cc cg : Columns) (st : Stats) :
  arch st = "cpu" ->
  append_stats (data_of cc cg) st = Ok (data_of (push st cc) cg).
Proof.
  destruct st as [b c a g bw bo nj cp mp], cc, cg. cbn [arch]. intros ->.
  reflexivity.
Qed.

Lemma append_stats_gpu (cc cg : Columns) (st : Stats) :
  arch st = "gpu" ->
  append_stats (data_of cc cg) st = Ok (data_of cc (push st cg)).
Proof.
  destruct st as [b c a g bw bo nj cp mp], cc, cg. cbn [arch]. intros ->.
  reflexivity.
Qed.

Lemma energy_cases (a : string) :
  (a = "cpu" ∧ getitem mem_energy_pj_bit a = Ok 22%Q)
  ∨ (a = "gpu" ∧ getitem mem_energy_pj_bit a = Ok 5.9%Q)
  ∨ (a ≠ "cpu" ∧ a ≠ "gpu" ∧ getitem mem_energy_pj_bit a = Raise (KeyError a)).
Proof.
  destruct (decide (a = "cpu")) as [->|H1]; [by left|].
  destruct (decide (a = "gpu")) as [->|H2]; [right; by left|].
  right; right. repeat split; try done.
  unfold getitem, mem_energy_pj_bit.
  by rewrite lookup_insert_ne, lookup_singleton_ne.
Qed.

Lemma power_known (a : string) :
  a = "cpu" ∨ a = "gpu" -> getitem power_w a = Ok 250%Q.
Proof. by intros [-> | ->]. Qed.

#[local] Ltac step_getitem H d k x :=
  let E := fresh "E" x in
  destruct (getitem d k) as [x|] eqn:E;
  cbn [mbind Result_bind mret Result_ret] in H; [|discriminate H].

#[local] Ltac step_float H f s x :=
  let E := fresh "F" x in
  destruct (py_float f s) as [x|] eqn:E;
  cbn [mbind Result_bind mret Result_ret] in H; [|discriminate H].

Section RowFacts.

Variable float : string -> option Q.

(** The text of a numeric column, read as a number. *)
Definition number (row : gmap string string) (col : string) : option Q :=
  row !! col ≫= float.

Lemma getitem_Ok {V : Type} (d : gmap string V) (k : string) (v : V) :
  getitem d k = Ok v -> d !! k = Some v.
Proof. unfold getitem. destruct (d !! k); by intros [= ->]. Qed.

Lemma py_float_Ok (s : string) (x : Q) :
  py_float float s = Ok x -> float s = Some x.
Proof. unfold py_float. destruct (float s); by intros [= ->]. Qed.

Lemma row_stats_inv (row : gmap string string) (st : Stats) :
  row_stats float row = Ok st ->
  (arch st = "cpu" ∨ arch st = "gpu")
  ∧ row !! "ARCH" = Some (arch st)
  ∧ (cmp_power_w st + mem_power_w st == 250)%Q
  ∧ (nj_op st * g_ops_s st == 250)%Q
  ∧ ∃ rd wr : Q,
      number row "MEM_BW_RD_GB_S" = Some rd
      ∧ number row "MEM_BW_WR_GB_S" = Some wr
      ∧ (bytes_op st * g_ops_s st == rd + wr)%Q.
Proof.
  unfold row_stats. intros H.
  step_getitem H row "BENCHMARK" b. step_getitem H row "CLASS" c.
  step_getitem H row "ARCH" ar.
  step_getitem H row "OPS_MOPS_S" s1. step_float H float s1 m.
  step_getitem H row "MEM_BW_RD_GB_S" s2. step_float H float s2 rd.
  step_getitem H row "MEM_BW_WR_GB_S" s3. step_float H float s3 wr.
  assert (Har : ar = "cpu" ∨ ar = "gpu").
  { destruct (energy_cases ar) as [[-> _]|[[-> _]|(_ & _ & Hk)]]; auto.
    rewrite Hk in H. cbn [mbind Result_bind] in H. discriminate H. }
  step_getitem H mem_energy_pj_bit ar en. rewrite (power_known ar Har) in H.
  cbn [mbind Result_bind mret Result_ret] in H.
  unfold truediv in H.
  destruct (Qeq_bool (m * 1000000) 0) eqn:D;
    cbn [mbind Result_bind mret Result_ret] in H; [discriminate H|].
  injection H as <-. cbn [arch cmp_power_w mem_power_w nj_op g_ops_s bytes_op].
  apply Qeq_bool_neq in D.
  assert (Hq : ¬ (m == 0)%Q) by (intros Hz; apply D; rewrite Hz; ring).
  split; [exact Har|]. split; [by apply getitem_Ok|].
  split; [ring|]. split; [by field|].
  exists rd, wr. unfold number.
  rewrite (getitem_Ok _ _ _ Es2), (getitem_Ok _ _ _ Es3). cbn.
  split; [by apply py_float_Ok|]. split; [by apply py_float_Ok|]. by field.
Qed.

(** The rows of one architecture. *)
Definition count_arch (a : string) (rows : list (gmap string string)) : nat :=
  List.length (filter (fun row => row !! "ARCH" = Some a) rows).

(** All six columns have [n] values. *)
Definition height (c : Columns) (n : nat) : Prop :=
  List.length (col_g_ops_s c) = n ∧ List.length (col_mem_bw_gib_s c) = n
  ∧ List.length (col_bytes_op c) = n ∧ List.length (col_nj_op c) = n
  ∧ List.length (col_cmp_power_w c) = n ∧ List.length (col_mem_power_w c) = n.

(** Row by row, compute and memory power add up to [p], and energy per
    operation times operations per second gives [p]. *)
Definition related (p : Q) (c : Columns) : Prop :=
  Forall2 (fun x y => (x + y == p)%Q) (col_cmp_power_w c) (col_mem_power_w c)
  ∧ Forall2 (fun x y => (x * y == p)%Q) (col_nj_op c) (col_g_ops_s c).

Lemma height_push (st : Stats) (c : Columns) (n : nat) :
  height c n -> height (push st c) (S n).
Proof.
  unfold height, push; cbn. rewrite !length_app; cbn. lia.
Qed.

Lemma related_push (st : Stats) (c : Columns) (p : Q) :
  (cmp_power_w st + mem_power_w st == p)%Q ->
  (nj_op st * g_ops_s st == p)%Q ->
  related p c -> related p (push st c).
Proof.
  intros H1 H2 [R1 R2]. split; cbn; apply Forall2_app; auto.
Qed.

Lemma do_row_spec (row : gmap string string) (cc cg : Columns)
    (out : list string) :
  do_row float row (data_of cc cg) out =
  match row_stats float row with
  | Ok st =>
      (Ok (if String.eqb (arch st) "cpu" then data_of (push st cc) cg
           else data_of cc (push st cg)),
       (out ++ [(row_line st ++ LF)%string])%list)
  | Raise e => (Raise e, out)
  end.
Proof.
  unfold do_row, lift, print, mbind, P_bind, mret, P_ret.
  destruct (row_stats float row) as [st|e] eqn:E; [|reflexivity].
  destruct (row_stats_inv row st E) as ([Ha|Ha] & _).
  - rewrite (append_stats_cpu cc cg st Ha). by rewrite Ha.
  - rewrite (append_stats_gpu cc cg st Ha). by rewrite Ha.
Qed.

Lemma do_row_raise (row : gmap string string) (data : Data)
    (out : list string) (e : Exn) :
  row_stats float row = Raise e -> do_row float row data out = (Raise e, out).
Proof. intros E. unfold do_row, lift, mbind, P_bind. by rewrite E. Qed.

Lemma do_rows_app (l1 l2 : list (gmap string string)) (data : Data)
    (out : list string) :
  do_rows float (l1 ++ l2) data out =
  match do_rows float l1 data out with
  | (Ok data', out') => do_rows float l2 data' out'
  | (Raise e, out') => (Raise e, out')
  end.
Proof.
  revert data out. induction l1 as [|row l1 IH]; intros data out;
    [reflexivity|].
  cbn [app do_rows]. unfold mbind, P_bind.
  destruct (do_row float row data out) as [[data'|e] out']; [apply IH | done].
Qed.

Lemma count_arch_cons (a : string) (row : gmap string string)
    (rows : list (gmap string string)) (b : string) :
  row !! "ARCH" = Some b ->
  count_arch a (row :: rows)
  = ((if decide (b = a) then 1 else 0) + count_arch a rows)%nat.
Proof.
  intros Hb. unfold count_arch. rewrite filter_cons.
  destruct (decide (b = a)) as [->|Hne].
  - by rewrite decide_True.
  - rewrite decide_False; [done|]. rewrite Hb. by intros [= ->].
Qed.

(** What a pass over rows that are all accepted makes of the columns. *)
Lemma do_rows_inv (rows : list (gmap string string)) (cc cg : Columns)
    (out out' : list string) (data : Data) :
  do_rows float rows (data_of cc cg) out = (Ok data, out') ->
  ∃ cc' cg' : Columns,
    data = data_of cc' cg'
    ∧ (∀ n, height cc n -> height cc' (n + count_arch "cpu" rows))
    ∧ (∀ n, height cg n -> height cg' (n + count_arch "gpu" rows))
    ∧ (related 250 cc -> related 250 cc')
    ∧ (related 250 cg -> related 250 cg')
    ∧ (count_arch "cpu" rows + count_arch "gpu" rows)%nat = List.length rows
    ∧ ∃ lines, out' = (out ++ lines)%list
               ∧ List.length lines = List.length rows.
Proof.
  revert cc cg out. induction rows as [|row rows IH]; intros cc cg out H.
  - injection H as <- <-. exists cc, cg.
    split; [reflexivity|].
    split; [intros n; by rewrite Nat.add_0_r|].
    split; [intros n; by rewrite Nat.add_0_r|].
    do 3 (split; [done|]).
    exists []. by rewrite app_nil_r.
  - cbn [do_rows] in H. unfold mbind, P_bind in H.
    rewrite do_row_spec in H.
    destruct (row_stats float row) as [st|e] eqn:E; [|discriminate H].
    destruct (row_stats_inv row st E) as (Ha & Hrow & H1 & H2 & _).
    rewrite !(count_arch_cons _ row rows (arch st) Hrow).
    destruct Ha as [Ha|Ha]; rewrite Ha in *; cbn [String.eqb] in H;
      apply IH in H as (cc' & cg' & -> & Hc & Hg & Rc & Rg & Hn & lines & -> & Hl);
      exists cc', cg'; (split; [reflexivity|]).
    + rewrite decide_True, decide_False by done.
      split; [intros n Hh; replace (n + (1 + count_arch "cpu" rows))%nat
                with (S n + count_arch "cpu" rows)%nat by lia;
              by apply Hc, height_push|].
      split; [exact Hg|].
      split; [intros R; by apply Rc, related_push|].
      split; [exact Rg|].
      split; [cbn; lia|].
      eexists. rewrite <- app_assoc. split; [reflexivity|]. cbn. by rewrite Hl.
    + rewrite decide_False, decide_True by done.
      split; [exact Hc|].
      split; [intros n Hh; replace (n + (1 + count_arch "gpu" rows))%nat
                with (S n + count_arch "gpu" rows)%nat by lia;
              by apply Hg, height_push|].
      split; [exact Rc|].
      split; [intros R; by apply Rg, related_push|].
      split; [cbn; lia|].
      eexists. rewrite <- app_assoc. split; [reflexivity|]. cbn. by rewrite Hl.
Qed.

End RowFacts.

(** *** Sums and means *)

Lemma fold_left_Qplus (l : list Q) (a : Q) :
  (fold_left Qplus l a == a + fold_left Qplus l 0)%Q.
Proof.
  revert a. induction l as [|x l IH]; intros a; cbn [fold_left].
  - ring.
  - rewrite (IH (a + x)%Q), (IH (0 + x)%Q). ring.
Qed.

Lemma sum_cons (x : Q) (l : list Q) : (sum (x :: l) == x + sum l)%Q.
Proof. unfold sum. cbn [fold_left]. rewrite fold_left_Qplus. ring. Qed.

Lemma len_cons {A : Type} (x : A) (l : list A) :
  (len (x :: l) == 1 + len l)%Q.
Proof.
  unfold len. cbn [List.length]. rewrite Nat2Z.inj_succ, <- Z.add_1_l.
  by rewrite inject_Z_plus.
Qed.

Lemma len_nonneg {A : Type} (l : list A) : (0 <= len l)%Q.
Proof.
  unfold len. change 0%Q with (inject_Z 0). rewrite <- Zle_Qle. lia.
Qed.

Lemma len_cons_nonzero {A : Type} (x : A) (l : list A) :
  ¬ (len (x :: l) == 0)%Q.
Proof.
  rewrite len_cons. pose proof (len_nonneg l). lra.
Qed.

Lemma sums_related (p : Q) (cs ms : list Q) :
  Forall2 (fun x y => (x + y == p)%Q) cs ms ->
  (sum cs + sum ms == p * len cs)%Q ∧ (len ms == len cs)%Q.
Proof.
  induction 1 as [|x y cs ms Hxy _ [IH1 IH2]].
  - split; [unfold sum, len; cbn; ring | reflexivity].
  - rewrite !sum_cons, !len_cons. split; [|by rewrite IH2].
    assert (E : (x + sum cs + (y + sum ms) == (x + y) + (sum cs + sum ms))%Q)
      by ring.
    rewrite E, Hxy, IH1. ring.
Qed.

(** The average memory power that [do_avg_power] derives is the mean of the
    memory powers of the rows. *)
Lemma derived_mean (p : Q) (cs ms : list Q) :
  cs ≠ [] ->
  Forall2 (fun x y => (x + y == p)%Q) cs ms ->
  (p - sum cs / len cs == sum ms / len ms)%Q.
Proof.
  intros Hne HF. destruct (sums_related p cs ms HF) as [Hs Hl].
  assert (Hnz : ¬ (len cs == 0)%Q)
    by (destruct cs; [done | apply len_cons_nonzero]).
  assert (E : (sum ms == p * len cs - sum cs)%Q) by (rewrite <- Hs; ring).
  rewrite Hl, E. by field.
Qed.

(** The power line of one architecture, from its compute powers. *)
Definition power_line (a : string) (cs : list Q) : string :=
  let avg := (sum cs / len cs)%Q in
  (avg_power_line a avg (250 - avg) ((250 - avg) / 250 * 100) ++ LF)%string.

Definition power_header : string :=
  (str_mul "-" 25 ++ " avg. power " ++ str_mul "-" 25 ++ LF)%string.

Lemma truediv_len (x : Q) (v : Q) (l : list Q) :
  truediv x (len (v :: l)) = Ok (x / len (v :: l))%Q.
Proof.
  unfold truediv.
  destruct (Qeq_bool (len (v :: l)) 0) eqn:E; [|reflexivity].
  apply Qeq_bool_eq in E. by apply len_cons_nonzero in E.
Qed.

Lemma do_avg_power_run (cc cg : Columns) (out : list string) :
  do_avg_power (data_of cc cg) out =
  match col_cmp_power_w cc, col_cmp_power_w cg with
  | [], _ => (Raise ZeroDivisionError, out ++ [power_header])
  | _ :: _, [] =>
      (Raise ZeroDivisionError,
       out ++ [power_header; power_line "cpu" (col_cmp_power_w cc)])
  | _ :: _, _ :: _ =>
      (Ok tt,
       out ++ [power_header; power_line "cpu" (col_cmp_power_w cc);
               power_line "gpu" (col_cmp_power_w cg)])
  end%list.
Proof.
  destruct cc as [g1 b1 o1 n1 c1 m1], cg as [g2 b2 o2 n2 c2 m2].
  cbn [col_cmp_power_w].
  unfold do_avg_power, print, lift, mbind, P_bind, mret, P_ret.
  cbn [for_]. unfold mbind, P_bind, mret, P_ret.
  change (getitem (data_of _ _) "cpu")
    with (Ok (inner_of (mkColumns g1 b1 o1 n1 c1 m1))).
  change (getitem (data_of _ _) "gpu")
    with (Ok (inner_of (mkColumns g2 b2 o2 n2 c2 m2))).
  change (getitem power_w "cpu") with (Ok 250%Q).
  change (getitem power_w "gpu") with (Ok 250%Q).
  cbn [inner_of inner_get String.eqb Ascii.eqb Bool.eqb col_g_ops_s
       col_mem_bw_gib_s col_bytes_op col_nj_op col_cmp_power_w
       col_mem_power_w].
  destruct c1 as [|v1 c1]; [reflexivity|].
  rewrite truediv_len.
  change (truediv ?x 250) with (Ok (x / 250)%Q).
  destruct c2 as [|v2 c2]; [by rewrite <- app_assoc|].
  rewrite truediv_len.
  change (truediv ?x 250) with (Ok (x / 250)%Q).
  by rewrite <- !app_assoc.
Qed.

(** *** The three passes *)

Definition individual_header : string :=
  (str_mul "-" 25 ++ " per-benchmark " ++ str_mul "-" 25 ++ LF)%string.

Definition hmeans_header : string :=
  (str_mul "-" 25 ++ " h-means " ++ str_mul "-" 25 ++ LF)%string.

(** The columns [do_hmeans] takes the mean of, in the order of its lines. *)
Definition hmean_items (cc cg : Columns) : list (string * string * list Q) :=
  [("cpu", "g_ops_s", col_g_ops_s cc);
   ("cpu", "mem_bw_gib_s", col_mem_bw_gib_s cc);
   ("cpu", "bytes_op", col_bytes_op cc);
   ("cpu", "nj_op", col_nj_op cc);
   ("gpu", "g_ops_s", col_g_ops_s cg);
   ("gpu", "mem_bw_gib_s", col_mem_bw_gib_s cg);
   ("gpu", "bytes_op", col_bytes_op cg);
   ("gpu", "nj_op", col_nj_op cg)].

Section Passes.

Variable float : string -> option Q.
Variable hmean : list Q -> Result Q.

Lemma do_individual_rows (rows : list (gmap string string)) :
  do_individual float (Some rows) [] =
  do_rows float rows (data_of no_columns no_columns) [individual_header].
Proof. reflexivity. Qed.

Lemma do_individual_inv (csv : option (list (gmap string string)))
    (data : Data) (out : list string) :
  do_individual float csv [] = (Ok data, out) ->
  ∃ (rows : list (gmap string string)) (cc cg : Columns),
    csv = Some rows
    ∧ data = data_of cc cg
    ∧ height cc (count_arch "cpu" rows)
    ∧ height cg (count_arch "gpu" rows)
    ∧ related 250 cc ∧ related 250 cg
    ∧ (count_arch "cpu" rows + count_arch "gpu" rows)%nat = List.length rows
    ∧ List.length out = S (List.length rows).
Proof.
  destruct csv as [rows|]; [|discriminate].
  rewrite do_individual_rows. intros H.
  apply do_rows_inv in H
    as (cc & cg & -> & Hc & Hg & Rc & Rg & Hn & lines & -> & Hl).
  exists rows, cc, cg. split; [reflexivity|]. split; [reflexivity|].
  split; [apply (Hc 0%nat); by repeat split|].
  split; [apply (Hg 0%nat); by repeat split|].
  split; [apply Rc; split; constructor|].
  split; [apply Rg; split; constructor|].
  split; [exact Hn|]. cbn. by rewrite Hl.
Qed.

Lemma do_rows_accepted (rows : list (gmap string string)) (data data' : Data)
    (out out' : list string) :
  do_rows float rows data out = (Ok data', out') ->
  Forall (fun row => ∃ st, row_stats float row = Ok st) rows.
Proof.
  revert data out. induction rows as [|row rows IH]; intros data out H;
    [constructor|].
  cbn [do_rows] in H. unfold mbind, P_bind in H.
  destruct (row_stats float row) as [st|e] eqn:E.
  - apply List.Forall_cons; [by exists st|].
    destruct (do_row float row data out) as [[d|e] o]; [|discriminate H].
    by apply IH in H.
  - by rewrite (do_row_raise float row data out e E) in H.
Qed.

Lemma do_hmeans_run (cc cg : Columns) (out : list string) :
  do_hmeans hmean (data_of cc cg) out =
  for_ (hmean_items cc cg)
       (fun '(a, col, vals) =>
          m ← lift (hmean vals) ; print (hmean_line a col m))
       (out ++ [hmeans_header])%list.
Proof.
  destruct cc as [g1 b1 o1 n1 c1 m1], cg as [g2 b2 o2 n2 c2 m2].
  unfold do_hmeans, hmean_items, print, lift.
  cbn [col_g_ops_s col_mem_bw_gib_s col_bytes_op col_nj_op for_].
  change (getitem (data_of _ _) "cpu")
    with (Ok (inner_of (mkColumns g1 b1 o1 n1 c1 m1))).
  change (getitem (data_of _ _) "gpu")
    with (Ok (inner_of (mkColumns g2 b2 o2 n2 c2 m2))).
  unfold mbind, P_bind, mret, P_ret.
  cbn [inner_of for_ col_g_ops_s col_mem_bw_gib_s col_bytes_op col_nj_op
       col_cmp_power_w col_mem_power_w].
  unfold mbind, P_bind, mret, P_ret.
  destruct (hmean g1); [|reflexivity].
  destruct (hmean b1); [|reflexivity].
  destruct (hmean o1); [|reflexivity].
  destruct (hmean n1); [|reflexivity].
  destruct (hmean g2); [|reflexivity].
  destruct (hmean b2); [|reflexivity].
  destruct (hmean o2); [|reflexivity].
  destruct (hmean n2); reflexivity.
Qed.

Lemma for_hmeans (items : list (string * string * list Q)) (ms : list Q)
    (out : list string) :
  Forall2 (fun it m => hmean it.2 = Ok m) items ms ->
  for_ items
       (fun '(a, col, vals) =>
          m ← lift (hmean vals) ; print (hmean_line a col m)) out
  = (Ok tt,
     (out ++ zip_with (fun it m => (hmean_line it.1.1 it.1.2 m ++ LF)%string)
               items ms)%list).
Proof.
  intros H. revert out.
  induction H as [|[[a col] vals] m items ms Hm _ IH]; intros out.
  - cbn. by rewrite app_nil_r.
  - cbn [for_ zip_with fst snd]. cbn [snd] in Hm.
    unfold mbind, P_bind, lift, print. rewrite Hm.
    fold (@mbind P _). rewrite IH. by rewrite <- app_assoc.
Qed.

(** X8.  When [do_individual] returns, the file could be opened and every
    row names the architecture [cpu] or [gpu]; the returned data hold, for
    each of the two architectures, the six columns in their fixed order,
    each with one value per row of that architecture ([data_of] spells out
    the two inner dicts); one line was printed per row after the header. *)
Theorem individual_columns (csv : option (list (gmap string string)))
    (data : Data) (out : list string) :
  do_individual float csv [] = (Ok data, out) ->
  ∃ (rows : list (gmap string string)) (cc cg : Columns),
    csv = Some rows
    ∧ data = data_of cc cg
    ∧ height cc (count_arch "cpu" rows)
    ∧ height cg (count_arch "gpu" rows)
    ∧ (count_arch "cpu" rows + count_arch "gpu" rows)%nat = List.length rows
    ∧ List.length out = S (List.length rows).
Proof.
  intros H. apply do_individual_inv in H
    as (rows & cc & cg & -> & -> & Hc & Hg & _ & _ & Hn & Hl).
  exists rows, cc, cg. split; [reflexivity|]. split; [reflexivity|].
  split; [exact Hc|]. split; [exact Hg|]. split; [exact Hn | exact Hl].
Qed.

(** X9.  For every row that the loop of [do_individual] accepts, the
    architecture is [cpu] or [gpu] and the values it appends satisfy:
    compute power plus memory power is the 250 W of the architecture;
    energy per operation (nJ) times throughput (G ops/s) is 250 W; bytes
    per operation times throughput (G ops/s) is the read plus write
    bandwidth of the row in GB/s. *)
Theorem row_relations (row : gmap string string) (st : Stats) :
  row_stats float row = Ok st ->
  (arch st = "cpu" ∨ arch st = "gpu")
  ∧ (cmp_power_w st + mem_power_w st == 250)%Q
  ∧ (nj_op st * g_ops_s st == 250)%Q
  ∧ ∃ rd wr : Q,
      number float row "MEM_BW_RD_GB_S" = Some rd
      ∧ number float row "MEM_BW_WR_GB_S" = Some wr
      ∧ (bytes_op st * g_ops_s st == rd + wr)%Q.
Proof.
  intros H. destruct (row_stats_inv float row st H) as (Ha & _ & H1 & H2 & H3).
  auto.
Qed.

(** X10.  A row whose architecture is neither [cpu] nor [gpu] raises
    [KeyError] for that name, and a row whose throughput is zero raises
    [ZeroDivisionError], when the columns of the row are present and its
    three numbers can be read. *)
Theorem row_errors (row : gmap string string) (b c a : string) (m rd wr : Q) :
  row !! "BENCHMARK" = Some b ->
  row !! "CLASS" = Some c ->
  row !! "ARCH" = Some a ->
  number float row "OPS_MOPS_S" = Some m ->
  number float row "MEM_BW_RD_GB_S" = Some rd ->
  number float row "MEM_BW_WR_GB_S" = Some wr ->
  (a ≠ "cpu" -> a ≠ "gpu" -> row_stats float row = Raise (KeyError a))
  ∧ (a = "cpu" ∨ a = "gpu" -> (m == 0)%Q ->
     row_stats float row = Raise ZeroDivisionError).
Proof.
  unfold number. intros Hb Hc Ha Hm Hrd Hwr.
  destruct (row !! "OPS_MOPS_S") as [s1|] eqn:E1; [|discriminate Hm].
  destruct (row !! "MEM_BW_RD_GB_S") as [s2|] eqn:E2; [|discriminate Hrd].
  destruct (row !! "MEM_BW_WR_GB_S") as [s3|] eqn:E3; [|discriminate Hwr].
  cbn in Hm, Hrd, Hwr.
  assert (Hget : ∀ k v, row !! k = Some v -> getitem row k = Ok v)
    by (intros k v Hk; unfold getitem; by rewrite Hk).
  assert (Hfl : ∀ s x, float s = Some x -> py_float float s = Ok x)
    by (intros s x Hs; unfold py_float; by rewrite Hs).
  assert (Hrun : row_stats float row =
    (getitem mem_energy_pj_bit a ≫= fun e =>
     getitem power_w a ≫= fun p =>
     truediv (rd * 1000000000 + wr * 1000000000) (m * 1000000) ≫= fun bo =>
     getitem power_w a ≫= fun p' =>
     truediv (p' * 1000000000) (m * 1000000) ≫= fun nj =>
     mret {| benchmark := b; benchmark_class := c; arch := a;
             g_ops_s := m / 1000;
             mem_bw_gib_s := (rd * 1000000000 + wr * 1000000000) / 1073741824;
             bytes_op := bo; nj_op := nj;
             cmp_power_w :=
               p - (rd * 1000000000 + wr * 1000000000) * 8 * e
                   * (1 # 1000000000000);
             mem_power_w :=
               (rd * 1000000000 + wr * 1000000000) * 8 * e
               * (1 # 1000000000000) |})%Q).
  { unfold row_stats.
    rewrite (Hget _ _ Hb), (Hget _ _ Hc), (Hget _ _ Ha), (Hget _ _ E1),
      (Hget _ _ E2), (Hget _ _ E3).
    cbn [mbind Result_bind].
    rewrite (Hfl _ _ Hm), (Hfl _ _ Hrd), (Hfl _ _ Hwr). reflexivity. }
  rewrite Hrun. split.
  - intros H1 H2.
    destruct (energy_cases a) as [[-> _]|[[-> _]|(_ & _ & ->)]]; done.
  - intros Hcg Hz.
    assert (Hd : ∀ x, truediv x (m * 1000000) = Raise ZeroDivisionError).
    { intros x. unfold truediv.
      assert (Hq : Qeq_bool (m * 1000000) 0 = true)
        by (apply Qeq_bool_iff; rewrite Hz; ring).
      by rewrite Hq. }
    rewrite (power_known a Hcg), Hd.
    destruct Hcg as [-> | ->]; reflexivity.
Qed.

(** X11.  [do_individual] stops at the first row that raises: the
    exception leaves the function, the lines of the rows before it have
    been printed, and nothing is printed for that row or the rows after
    it. *)
Theorem individual_stops_at_bad_row (pre post : list (gmap string string))
    (row : gmap string string) (data : Data) (out : list string) (e : Exn) :
  do_individual float (Some pre) [] = (Ok data, out) ->
  row_stats float row = Raise e ->
  do_individual float (Some (pre ++ row :: post)%list) [] = (Raise e, out).
Proof.
  rewrite !do_individual_rows. intros Hpre Hrow.
  rewrite do_rows_app, Hpre. cbn [do_rows]. unfold mbind, P_bind.
  by rewrite (do_row_raise float row data out e Hrow).
Qed.

(** X12.  On the data that [do_individual] returns, [do_avg_power] prints
    its header and one line per architecture that has rows, [cpu] first,
    and raises [ZeroDivisionError] at the first architecture without rows;
    in exact arithmetic, the average memory power of a line, derived as
    250 minus the average compute power, is the mean of the memory powers
    of the rows (the floats of the script agree with it up to rounding
    only). *)
Theorem avg_power_lines (csv : option (list (gmap string string)))
    (data : Data) (out0 : list string) :
  do_individual float csv [] = (Ok data, out0) ->
  ∃ (rows : list (gmap string string)) (cc cg : Columns),
    csv = Some rows
    ∧ List.length (col_cmp_power_w cc) = count_arch "cpu" rows
    ∧ List.length (col_cmp_power_w cg) = count_arch "gpu" rows
    ∧ (∀ out,
         do_avg_power data out =
         match col_cmp_power_w cc, col_cmp_power_w cg with
         | [], _ => (Raise ZeroDivisionError, out ++ [power_header])
         | _ :: _, [] =>
             (Raise ZeroDivisionError,
              out ++ [power_header; power_line "cpu" (col_cmp_power_w cc)])
         | _ :: _, _ :: _ =>
             (Ok tt,
              out ++ [power_header; power_line "cpu" (col_cmp_power_w cc);
                      power_line "gpu" (col_cmp_power_w cg)])
         end%list)
    ∧ (col_cmp_power_w cc ≠ [] ->
       (250 - sum (col_cmp_power_w cc) / len (col_cmp_power_w cc)
        == sum (col_mem_power_w cc) / len (col_mem_power_w cc))%Q)
    ∧ (col_cmp_power_w cg ≠ [] ->
       (250 - sum (col_cmp_power_w cg) / len (col_cmp_power_w cg)
        == sum (col_mem_power_w cg) / len (col_mem_power_w cg))%Q).
Proof.
  intros H. apply do_individual_inv in H
    as (rows & cc & cg & -> & -> & Hc & Hg & [Rc _] & [Rg _] & _ & _).
  exists rows, cc, cg. split; [reflexivity|].
  split; [apply Hc|]. split; [apply Hg|].
  split; [intros out; apply do_avg_power_run|].
  split; intros Hne; by apply derived_mean.
Qed.

(** X13.  On data of the shape that [do_individual] returns, [do_hmeans]
    takes the mean of eight columns: throughput, bandwidth, bytes per
    operation and energy per operation, for [cpu] and then for [gpu]; the
    two power columns are skipped.  When [hmean] has a value for each, the
    header and the eight lines are printed in that order. *)
Theorem hmeans_lines (cc cg : Columns) (ms : list Q) (out : list string) :
  Forall2 (fun it m => hmean it.2 = Ok m) (hmean_items cc cg) ms ->
  do_hmeans hmean (data_of cc cg) out =
  (Ok tt,
   (out ++ hmeans_header
        :: zip_with (fun it m => (hmean_line it.1.1 it.1.2 m ++ LF)%string)
             (hmean_items cc cg) ms)%list).
Proof.
  intros Hms.
  rewrite do_hmeans_run, (for_hmeans _ ms _ Hms). by rewrite <- app_assoc.
Qed.

(** X14.  [main] ends normally only if the results file could be opened,
    every row was accepted, and both architectures have at least one row;
    in particular it fails on a file without rows. *)
Theorem main_success (csv : option (list (gmap string string)))
    (out : list string) :
  main float hmean csv [] = (Ok tt, out) ->
  ∃ rows : list (gmap string string),
    csv = Some rows
    ∧ Forall (fun row => ∃ st, row_stats float row = Ok st) rows
    ∧ (0 < count_arch "cpu" rows)%nat
    ∧ (0 < count_arch "gpu" rows)%nat.
Proof.
  unfold main. unfold mbind at 1, P_bind at 1.
  destruct (do_individual float csv []) as [[data|e] out1] eqn:E;
    [|discriminate].
  intros H.
  pose proof E as E'.
  apply do_individual_inv in E
    as (rows & cc & cg & -> & -> & Hc & Hg & _).
  exists rows. split; [reflexivity|].
  split; [rewrite do_individual_rows in E'; by eapply do_rows_accepted|].
  unfold mbind, P_bind in H.
  destruct (do_hmeans hmean (data_of cc cg) out1) as [[[]|e] out2];
    [|discriminate H].
  rewrite do_avg_power_run in H.
  destruct Hc as (_ & _ & _ & _ & Hc & _), Hg as (_ & _ & _ & _ & Hg & _).
  rewrite <- Hc, <- Hg.
  destruct (col_cmp_power_w cc), (col_cmp_power_w cg); try discriminate H.
  cbn. lia.
Qed.

End Passes.

End SummarizeFacts.

(** ** Concrete runs of the further properties *)

Definition file_in_the_way_host : Host :=
  {| environ := {[ "OMP_NUM_THREADS" := "8"; "HOME" := "/root" ]};
     modprobe_msr := Completed; out_dir := RegularFile;
     benchmark_output := []; benchmark_returncode := 0;
     time_started := 100; time_waited := 104; uprof_pcm := CannotExecute;
     pipe_capacity := 65536%N |}.

Definition hasty_args : Args :=
  {| command := "/bin/foo"; init_duration := -1; run_duration := 5 |}.

Lemma benchmark_environment_witness :
  List.filter (fun te => is_benchmark_spawn te.2)
    (log (do_profile foo_args sample_host initial_store).2)
  = [(MainThread, EPopen "/bin/foo" true false false false
                    (benchmark_env sample_host))].
Proof.
  assert (Hod : out_dir sample_host ≠ RegularFile) by discriminate.
  destruct (benchmark_environment decimal_float foo_args sample_host)
    as (_ & _ & _ & H).
  exact (H eq_refl Hod).
Defined.


(** Delays of ten thousand million seconds, back and forth. *)
Definition far_back_args : Args :=
  {| command := "/bin/foo"; init_duration := -10000000000;
     run_duration := 5 |}.


Lemma negative_delay_skips_profiler_witness :
  let r := do_profile hasty_args sample_host initial_store in
  let r' := do_profile far_back_args sample_host initial_store in
  r.1 = Ok tt ∧ stderr (log r.2) = [ValueError]
  ∧ r'.1 = Ok tt ∧ stderr (log r'.2) = [OverflowError].
Proof.
  cbv zeta.
  assert (Hod : out_dir sample_host ≠ RegularFile) by discriminate.
  assert (Hneg : (init_duration hasty_args < 0)%Q) by reflexivity.
  assert (Hneg' : (init_duration far_back_args < 0)%Q) by reflexivity.
  destruct (negative_delay_skips_profiler hasty_args sample_host
              eq_refl Hod Hneg) as (H1 & _ & _ & H2 & _).
  destruct (negative_delay_skips_profiler far_back_args sample_host
              eq_refl Hod Hneg') as (H3 & _ & _ & H4 & _).
  split; [exact H1|]. split; [exact H2|]. split; [exact H3 | exact H4].
Defined.


Lemma out_is_a_file_witness :
  let r := do_profile foo_args file_in_the_way_host initial_store in
  r.1 = Raise FileExistsError ∧ exit_status r.1 = 1.
Proof.
  cbv zeta.
  destruct (out_is_a_file foo_args file_in_the_way_host eq_refl eq_refl)
    as (H1 & H2 & _).
  split; [exact H1 | exact H2].
Defined.

Lemma main_empty_command_witness :
  let r := main decimal_float "usage: npbtool.py" (TimeNamespace "")
             sample_host initial_store in
  r.1 = Ok tt ∧ log r.2 = [(MainThread, EPrint "usage: npbtool.py")].
Proof.
  cbv zeta.
  apply (main_empty_command decimal_float "usage: npbtool.py"
           (TimeNamespace "") sample_host).
  right. reflexivity.
Defined.

Module SummarizeRuns.

Import Summarize SummarizeFacts.

Definition sample_individual : Result Data * list string :=
  do_individual decimal_float (Some sample_rows) [].

Definition sample_data : Data :=
  match sample_individual.1 with
  | Ok d => d
  | Raise _ => ∅
  end.

Lemma sample_individual_ok :
  do_individual decimal_float (Some sample_rows) []
  = (Ok sample_data, sample_individual.2).
Proof. vm_compute. reflexivity. Defined.

(** A row for an architecture the tables do not know, and a row with no
    throughput. *)
Definition tpu_row : gmap string string :=
  row_of "bt" "C" "tpu" "50000" "100" "50".

Definition idle_row : gmap string string :=
  row_of "bt" "C" "cpu" "0" "100" "50".

Lemma individual_columns_witness :
  ∃ (rows : list (gmap string string)) (cc cg : Columns),
    Some sample_rows = Some rows
    ∧ sample_data = data_of cc cg
    ∧ height cc (count_arch "cpu" rows)
    ∧ height cg (count_arch "gpu" rows)
    ∧ (count_arch "cpu" rows + count_arch "gpu" rows)%nat = List.length rows
    ∧ List.length sample_individual.2 = S (List.length rows).
Proof.
  exact (individual_columns decimal_float _ _ _ sample_individual_ok).
Defined.

Definition gpu_row : gmap string string :=
  row_of "bt" "C" "gpu" "400000" "600" "300".

Definition gpu_stats : Stats :=
  match row_stats decimal_float gpu_row with
  | Ok st => st
  | Raise _ => mkStats "" "" "" 0 0 0 0 0 0
  end.

Lemma gpu_row_ok : row_stats decimal_float gpu_row = Ok gpu_stats.
Proof. vm_compute. reflexivity. Defined.

Lemma row_relations_witness :
  row_stats decimal_float gpu_row = Ok gpu_stats
  ∧ (nj_op gpu_stats * g_ops_s gpu_stats == 250)%Q.
Proof.
  split; [exact gpu_row_ok|].
  exact (proj1 (proj2 (proj2
           (row_relations decimal_float gpu_row gpu_stats gpu_row_ok)))).
Defined.

Lemma row_errors_witness :
  row_stats decimal_float tpu_row = Raise (KeyError "tpu")
  ∧ row_stats decimal_float idle_row = Raise ZeroDivisionError.
Proof.
  split.
  - refine (proj1 (row_errors decimal_float tpu_row "bt" "C" "tpu"
                     50000 100 50 _ _ _ _ _ _) _ _);
      solve [reflexivity | discriminate].
  - refine (proj2 (row_errors decimal_float idle_row "bt" "C" "cpu"
                     0 100 50 _ _ _ _ _ _) _ _);
      solve [reflexivity | by left].
Defined.

Lemma individual_stops_at_bad_row_witness :
  do_individual decimal_float
    (Some (sample_rows ++ tpu_row :: sample_rows)%list) []
  = (Raise (KeyError "tpu"), sample_individual.2).
Proof.
  apply (individual_stops_at_bad_row decimal_float sample_rows sample_rows
           tpu_row sample_data sample_individual.2 (KeyError "tpu")
           sample_individual_ok).
  reflexivity.
Defined.

Lemma avg_power_lines_witness :
  ∃ (rows : list (gmap string string)) (cc cg : Columns),
    Some sample_rows = Some rows
    ∧ List.length (col_cmp_power_w cc) = count_arch "cpu" rows
    ∧ List.length (col_cmp_power_w cg) = count_arch "gpu" rows.
Proof.
  destruct (avg_power_lines decimal_float _ _ _ sample_individual_ok)
    as (rows & cc & cg & H1 & H2 & H3 & _).
  exists rows, cc, cg. split; [exact H1|]. split; [exact H2 | exact H3].
Defined.

Definition unit_columns : Columns :=
  mkColumns [2; 2]%Q [4]%Q [1; 1; 1]%Q [5]%Q [100]%Q [150]%Q.

Lemma hmeans_lines_witness :
  ∃ ms : list Q,
    Forall2 (fun it m => harmonic_mean it.2 = Ok m)
      (hmean_items unit_columns unit_columns) ms
    ∧ (do_hmeans harmonic_mean (data_of unit_columns unit_columns) []).1
      = Ok tt.
Proof.
  eexists.
  assert (H : Forall2 (fun it m => harmonic_mean it.2 = Ok m)
                (hmean_items unit_columns unit_columns)
                (map (fun it => (len it.2 / sum (map Qinv it.2))%Q)
                   (hmean_items unit_columns unit_columns))).
  { repeat (apply Forall2_cons_2; [reflexivity|]). apply Forall2_nil_2. }
  split; [exact H|].
  by rewrite (hmeans_lines harmonic_mean unit_columns unit_columns _ [] H).
Defined.

Lemma main_success_witness :
  ∃ rows : list (gmap string string),
    Some sample_rows = Some rows
    ∧ Forall (fun row => ∃ st, row_stats decimal_float row = Ok st) rows
    ∧ (0 < count_arch "cpu" rows)%nat
    ∧ (0 < count_arch "gpu" rows)%nat.
Proof.
  refine (main_success decimal_float harmonic_mean (Some sample_rows)
            (main decimal_float harmonic_mean (Some sample_rows) []).2 _).
  vm_compute. reflexivity.
Defined.

End SummarizeRuns.
